(** * Microsoft Foundry provider: streaming completion adapter

    A shallow embedding of [src/core/api/providers/microsoft-foundry.ts]
    (the handler: capability table, client provisioning, error messages,
    request shaping and the streaming loop of [createMessage]) and of the
    capability resolver duplicated in the settings view
    [MicrosoftFoundryProvider.tsx]. *)

From Stdlib Require Import String Ascii List Bool ZArith QArith Lia.
Import ListNotations.
Close Scope Q_scope.
Open Scope string_scope.
Open Scope list_scope.

(** ** JavaScript string primitives used by the handler *)

Module JS.

(** [s.startsWith(p)] *)
Definition startsWith (s p : string) : bool := String.prefix p s.

(** [s.includes(needle)]: [needle] occurs at some offset of [s]. *)
Fixpoint includes (s needle : string) : bool :=
  String.prefix needle s ||
  match s with
  | EmptyString => false
  | String _ rest => includes rest needle
  end.

Definition lower_ascii (c : ascii) : ascii :=
  let n := nat_of_ascii c in
  if (65 <=? n)%nat && (n <=? 90)%nat then ascii_of_nat (n + 32) else c.

(** [s.toLowerCase()] on the ASCII range, in which deployment names and the
    matched fragments live. *)
Fixpoint toLowerCase (s : string) : string :=
  match s with
  | EmptyString => EmptyString
  | String c rest => String (lower_ascii c) (toLowerCase rest)
  end.

(** Truthiness of an optional string: [undefined] and the empty string are
    falsy. *)
Definition truthy (o : option string) : bool :=
  match o with
  | Some s => negb (s =? EmptyString)
  | None => false
  end.

(** [a || b] on optional numbers: [undefined] and [0] are falsy. *)
Definition or_num (a b : option Z) : option Z :=
  match a with
  | Some n => if (n =? 0)%Z then b else a
  | None => b
  end.

(** A member of an object literal.  [{ k: undefined }] has the key with the
    value [undefined]; a conditional spread [...(c ? { k } : {})] leaves the
    key out.  [JSON.stringify] writes neither to the request body. *)
Inductive Member (A : Type) : Type :=
| Absent : Member A
| Undefined : Member A
| Present : A -> Member A.
Arguments Absent {A}.
Arguments Undefined {A}.
Arguments Present {A} _.

(** The member as serialised in the JSON body. *)
Definition on_wire {A : Type} (m : Member A) : option A :=
  match m with
  | Present a => Some a
  | _ => None
  end.

End JS.

(** ** Capability records *)

(** [ModelInfo] of [@shared/api], restricted to the fields the table sets.
    A field that an object literal leaves out is [None]; the same record
    type serves for [Partial<ModelInfo>]. *)
Record ModelInfo : Type := mkModelInfo {
  maxTokens : option Z;
  contextWindow : option Z;
  supportsImages : option bool;
  supportsPromptCache : option bool;
  supportsReasoning : option bool;
  inputPrice : option Q;
  outputPrice : option Q
}.

Definition over {A : Type} (base override : option A) : option A :=
  match override with
  | Some _ => override
  | None => base
  end.

(** [{ ...base, ...caps }] *)
Definition spread (base caps : ModelInfo) : ModelInfo :=
  {| maxTokens := over (maxTokens base) (maxTokens caps);
     contextWindow := over (contextWindow base) (contextWindow caps);
     supportsImages := over (supportsImages base) (supportsImages caps);
     supportsPromptCache := over (supportsPromptCache base) (supportsPromptCache caps);
     supportsReasoning := over (supportsReasoning base) (supportsReasoning caps);
     inputPrice := over (inputPrice base) (inputPrice caps);
     outputPrice := over (outputPrice base) (outputPrice caps) |}.

(** Numbers are kept in lowest terms, so that [0] and [0.0] are one value. *)
Definition num (q : Q) : option Q := Some (Qred q).

(** A table entry with prices and without [supportsReasoning]. *)
Definition priced (mt cw : Z) (img cache : bool) (ip op : Q) : ModelInfo :=
  mkModelInfo (Some mt) (Some cw) (Some img) (Some cache) None (num ip) (num op).

(** A table entry with prices and [supportsReasoning: true]. *)
Definition priced_reasoning (mt cw : Z) (img cache : bool) (ip op : Q) : ModelInfo :=
  mkModelInfo (Some mt) (Some cw) (Some img) (Some cache) (Some true) (num ip) (num op).

(** Entries of the settings view: no prices. *)
Definition plain (mt cw : Z) (img cache : bool) : ModelInfo :=
  mkModelInfo (Some mt) (Some cw) (Some img) (Some cache) None None None.

Definition plain_reasoning (mt cw : Z) (img cache : bool) : ModelInfo :=
  mkModelInfo (Some mt) (Some cw) (Some img) (Some cache) (Some true) None None.

(** ** Capability resolver

    The two copies of [getModelCapabilities] differ only in the table and
    the default record; [Object.entries] walks the table in insertion
    order, so the table is an association list. *)

Definition CapabilityTable : Type := list (string * ModelInfo).

(** [table[modelName]], own keys. *)
Fixpoint own (table : CapabilityTable) (modelName : string) : option ModelInfo :=
  match table with
  | [] => None
  | (key, caps) :: rest => if key =? modelName then Some caps else own rest modelName
  end.

(** The [for ... of Object.entries(table)] loop: the first entry whose key
    is a prefix of [modelName]. *)
Fixpoint first_prefix (table : CapabilityTable) (modelName : string)
  : option (string * ModelInfo) :=
  match table with
  | [] => None
  | (prefix, capabilities) :: rest =>
      if JS.startsWith modelName prefix then Some (prefix, capabilities)
      else first_prefix rest modelName
  end.

(** Members inherited from [Object.prototype] also make [table[modelName]]
    truthy; spreading such a value copies no field, and no table key is a
    prefix of any of their names, so the record returned for them is the
    default one on either path. *)
Definition resolve (table : CapabilityTable) (default_info : ModelInfo)
  (modelName : string) : ModelInfo :=
  match own table modelName with
  | Some caps => spread default_info caps
  | None =>
      match first_prefix table modelName with
      | Some (_, capabilities) => spread default_info capabilities
      | None => default_info
      end
  end.

(** *** The handler's copy ([microsoft-foundry.ts]) *)

Module Provider.

Definition FOUNDRY_MODEL_CAPABILITIES : CapabilityTable :=
  [ ("gpt-5", priced 32768 256000 true true 5.0 20.0);
    ("gpt-5-mini", priced 32768 256000 true true 1.0 4.0);
    ("gpt-5.2", priced 32768 256000 true true 5.0 20.0);
    ("gpt-5.2-chat", priced 32768 256000 true true 5.0 20.0);
    ("gpt-4o", priced 16384 128000 true false 2.5 10.0);
    ("gpt-4o-mini", priced 16384 128000 true false 0.15 0.6);
    ("gpt-4", priced 8192 128000 false false 30.0 60.0);
    ("gpt-4-turbo", priced 4096 128000 true false 10.0 30.0);
    ("o1", priced_reasoning 100000 200000 true false 15.0 60.0);
    ("o1-mini", priced_reasoning 65536 128000 false false 3.0 12.0);
    ("o1-preview", priced_reasoning 32768 128000 false false 15.0 60.0);
    ("o3", priced_reasoning 100000 200000 true false 10.0 40.0);
    ("o3-mini", priced_reasoning 65536 200000 false false 1.1 4.4);
    ("gpt-4.1", priced 32768 1047576 true false 2.0 8.0);
    ("gpt-4.1-mini", priced 32768 1047576 true false 0.4 1.6);
    ("gpt-4.1-nano", priced 32768 1047576 true false 0.1 0.4);
    ("o1-pro", priced_reasoning 100000 200000 true false 150.0 600.0);
    ("o4-mini", priced_reasoning 65536 200000 true false 1.1 4.4);
    ("gpt-35-turbo", priced 4096 16385 false false 0.5 1.5);
    ("claude-sonnet-4-5", priced_reasoning 8192 200000 true true 3.0 15.0);
    ("claude-opus-4", priced_reasoning 8192 200000 true true 15.0 75.0);
    ("claude-haiku-4", priced 8192 200000 true true 0.8 4.0);
    ("Phi-4", priced 16384 128000 false false 0.0 0.0);
    ("Phi-4-mini", priced 16384 128000 false false 0.0 0.0);
    ("Phi-4-multimodal", priced 16384 128000 true false 0.0 0.0);
    ("Llama-3.3-70B", priced 8192 128000 false false 0.0 0.0);
    ("Llama-4", priced 8192 128000 false false 0.0 0.0);
    ("DeepSeek-V3", priced 8192 128000 false false 0.0 0.0);
    ("mistral-medium", priced 8192 128000 false false 0.0 0.0);
    ("grok", priced 8192 128000 false false 0.0 0.0);
    ("grok-3", priced 8192 128000 false false 0.0 0.0);
    ("grok-4", priced 8192 128000 false false 0.0 0.0) ].

Definition DEFAULT_MODEL_INFO : ModelInfo :=
  mkModelInfo (Some 4096%Z) (Some 128000%Z) (Some false) (Some false) None (num 0) (num 0).

Definition getModelCapabilities (modelName : string) : ModelInfo :=
  resolve FOUNDRY_MODEL_CAPABILITIES DEFAULT_MODEL_INFO modelName.

End Provider.

(** *** The settings view's copy ([MicrosoftFoundryProvider.tsx]) *)

Module Webview.

Definition MODEL_CAPABILITIES : CapabilityTable :=
  [ ("gpt-5", plain 32768 256000 true true);
    ("gpt-5-mini", plain 32768 256000 true true);
    ("gpt-5.2", plain 32768 256000 true true);
    ("gpt-5.2-chat", plain 32768 256000 true true);
    ("gpt-4o", plain 16384 128000 true false);
    ("gpt-4o-mini", plain 16384 128000 true false);
    ("gpt-4.1", plain 32768 1047576 true false);
    ("gpt-4.1-mini", plain 32768 1047576 true false);
    ("gpt-4.1-nano", plain 32768 1047576 true false);
    ("gpt-4", plain 8192 128000 false false);
    ("gpt-4-turbo", plain 4096 128000 true false);
    ("o1-pro", plain_reasoning 100000 200000 true false);
    ("o1", plain_reasoning 100000 200000 true false);
    ("o1-mini", plain_reasoning 65536 128000 false false);
    ("o1-preview", plain_reasoning 32768 128000 false false);
    ("o3", plain_reasoning 100000 200000 true false);
    ("o3-mini", plain_reasoning 65536 200000 false false);
    ("o4-mini", plain_reasoning 65536 200000 true false);
    ("gpt-35-turbo", plain 4096 16385 false false);
    ("claude-sonnet-4-5", plain_reasoning 8192 200000 true true);
    ("claude-opus-4", plain_reasoning 8192 200000 true true);
    ("claude-haiku-4", plain 8192 200000 true true);
    ("Phi-4", plain 16384 128000 false false);
    ("Phi-4-mini", plain 16384 128000 false false);
    ("Phi-4-multimodal", plain 16384 128000 true false);
    ("Llama-3.3-70B", plain 8192 128000 false false);
    ("Llama-4", plain 8192 128000 false false);
    ("DeepSeek-V3", plain 8192 128000 false false);
    ("mistral-medium", plain 8192 128000 false false);
    ("grok", plain 8192 128000 false false);
    ("grok-3", plain 8192 128000 false false);
    ("grok-4", plain 8192 128000 false false) ].

Definition DEFAULT_MODEL_INFO : ModelInfo :=
  mkModelInfo (Some 4096%Z) (Some 128000%Z) (Some false) (Some false) None None None.

Definition getModelCapabilities (modelName : string) : ModelInfo :=
  resolve MODEL_CAPABILITIES DEFAULT_MODEL_INFO modelName.

End Webview.


(** ** Handler options, client and thrown errors *)

Inductive MicrosoftFoundryCloudEnvironment : Type :=
| commercial
| government
| stack.

Record MicrosoftFoundryHandlerOptions : Type := mkOptions {
  microsoftFoundryEndpoint : option string;
  microsoftFoundryApiKey : option string;
  microsoftFoundryDeploymentId : option string;
  microsoftFoundryCloudEnvironment : option MicrosoftFoundryCloudEnvironment;
  microsoftFoundryUseIdentity : option bool;
  microsoftFoundryCustomScope : option string;
  microsoftFoundryApiVersion : option string;
  microsoftFoundryModelInfo : option ModelInfo;
  reasoningEffort : option string
}.

(** The arguments [new AzureOpenAI({...})] is built from; the SDK class
    itself is an external collaborator. *)
Inductive Credential : Type :=
| apiKey (key : string)
| azureADTokenProvider (scope : string).

Record AzureOpenAI : Type := mkClient {
  endpoint : string;
  credential : Credential;
  apiVersion : string
}.

(** The handler instance: [this.options] and the cached [this.client]. *)
Record MicrosoftFoundryHandler : Type := mkHandler {
  options : MicrosoftFoundryHandlerOptions;
  client : option AzureOpenAI
}.

(** [new MicrosoftFoundryHandler(options)] *)
Definition new_handler (o : MicrosoftFoundryHandlerOptions) : MicrosoftFoundryHandler :=
  mkHandler o None.

(** A call either returns or throws [new Error(message)]. *)
Inductive Result (A : Type) : Type :=
| Ok : A -> Result A
| Throw : string -> Result A.
Arguments Ok {A} _.
Arguments Throw {A} _.

(** What a [catch] clause sees of the value thrown by the SDK or the
    transport: [message] is [error.message] (or [String(error)]), [status]
    and [statusCode] the numeric members when present. *)
Record RawError : Type := mkRawError {
  message : string;
  status : option Z;
  statusCode : option Z
}.

(** An [Error] thrown by the handler itself carries only a message. *)
Definition plain_error (m : string) : RawError := mkRawError m None None.

Definition flag (b : option bool) : bool :=
  match b with
  | Some true => true
  | _ => false
  end.

Definition is_code (statusCode : option Z) (code : Z) : bool :=
  match statusCode with
  | Some n => (n =? code)%Z
  | None => false
  end.

Definition nl : string := String (ascii_of_nat 10) EmptyString.

Definition msg_endpoint_required : string :=
  "Microsoft Foundry endpoint is required. Please configure the endpoint URL.".

Definition msg_auth_required : string :=
  "Microsoft Foundry requires either an API key or Azure Identity authentication. Please configure one of these options.".

Definition msg_stack_scope : string :=
  "Azure Stack environment requires a custom audience scope. Please configure 'Custom Scope' in the provider settings.".

Definition msg_no_deployment : string :=
  "No deployment selected. Please select a deployment from the Microsoft Foundry provider settings.".

Definition msg_relogin : string :=
  "Azure CLI session expired or not authenticated. Run `az login` to re-authenticate, then try again.".

Definition msg_invalid_key : string :=
  "Invalid API key. Please verify your Microsoft Foundry API key is correct.".

Definition msg_forbidden : string :=
  "Insufficient permissions. Ensure your account has the 'Cognitive Services User' role assigned for this resource.".

(** The template literal prints an absent identifier as [undefined]. *)
Definition msg_deployment_not_found (deploymentId : option string) : string :=
  "Deployment '" ++
  match deploymentId with Some d => d | None => "undefined" end ++
  "' not found. " ++
  "Verify that:" ++ nl ++
  "1. The deployment exists in your Azure AI Foundry project" ++ nl ++
  "2. The deployment name is spelled correctly" ++ nl ++
  "3. The model has been deployed (not just available in the catalog)".

Definition msg_not_found : string :=
  "Resource not found. Verify the endpoint URL is correct.".

Definition msg_rate_limit : string :=
  "Rate limit exceeded. Please wait a moment and try again, or request a quota increase for your Azure OpenAI resource.".

Definition msg_network : string :=
  "Unable to reach Microsoft Foundry endpoint. Check your network connectivity and verify the endpoint URL is correct.".

Definition msg_default (m : string) : string := "Microsoft Foundry error: " ++ m.

(** ** Error classifier: [getDetailedErrorMessage] *)

Definition getDetailedErrorMessage (o : MicrosoftFoundryHandlerOptions) (error : RawError)
  : string :=
  let message := message error in
  let statusCode := JS.or_num (status error) (statusCode error) in
  if is_code statusCode 401 || JS.includes message "401" || JS.includes message "Unauthorized" then
    if flag (microsoftFoundryUseIdentity o) then msg_relogin else msg_invalid_key
  else if is_code statusCode 403 || JS.includes message "403" || JS.includes message "Forbidden" then
    msg_forbidden
  else if is_code statusCode 404 || JS.includes message "404" || JS.includes message "Not Found" then
    if JS.includes message "deployment" || JS.includes message "Deployment"
       || JS.includes message "DeploymentNotFound"
    then msg_deployment_not_found (microsoftFoundryDeploymentId o)
    else msg_not_found
  else if is_code statusCode 429 || JS.includes message "429"
          || JS.includes message "Too Many Requests" then
    msg_rate_limit
  else if JS.includes message "ENOTFOUND" || JS.includes message "ECONNREFUSED"
          || JS.includes message "network" then
    msg_network
  else msg_default message.

(** ** Client provisioner *)

Definition scope_government : string := "https://cognitiveservices.azure.us/.default".
Definition scope_commercial : string := "https://cognitiveservices.azure.com/.default".

Definition text_of (o : option string) : string :=
  match o with
  | Some s => s
  | None => EmptyString
  end.

Definition getAudienceScope (o : MicrosoftFoundryHandlerOptions) : Result string :=
  let endpoint := JS.toLowerCase (text_of (microsoftFoundryEndpoint o)) in
  let cloudEnv :=
    match microsoftFoundryCloudEnvironment o with
    | Some env => env
    | None => commercial
    end in
  let customScope := microsoftFoundryCustomScope o in
  match cloudEnv, JS.truthy customScope with
  | stack, true => Ok (text_of customScope)
  | _, _ =>
      if JS.includes endpoint "azure.us" then Ok scope_government
      else if JS.includes endpoint "azure.com" then Ok scope_commercial
      else
        match cloudEnv with
        | government => Ok scope_government
        | stack =>
            if negb (JS.truthy customScope) then Throw msg_stack_scope
            else Ok (text_of customScope)
        | commercial => Ok scope_commercial
        end
  end.

(** ** Provider stream and canonical events *)

(** One entry of [delta.tool_calls]; [function.name] and
    [function.arguments] are flattened into the entry. *)
Record ToolCallFragment : Type := mkFragment {
  index : nat;
  call_id : option string;
  function_name : option string;
  function_arguments : option string
}.

Record Delta : Type := mkDelta {
  content : option string;
  reasoning_content : option string;
  tool_calls : option (list ToolCallFragment)
}.

Record Choice : Type := mkChoice {
  delta : option Delta
}.

(** [chunk.usage]; [cached_tokens] stands for
    [prompt_tokens_details?.cached_tokens]. *)
Record UsageBlock : Type := mkUsage {
  prompt_tokens : option Z;
  completion_tokens : option Z;
  cached_tokens : option Z
}.

Record Chunk : Type := mkChunk {
  choices : option (list Choice);
  usage : option UsageBlock
}.

(** Modelled from the spec: the tool-call events of the stream, whose
    type is declared with the absent [ToolCallProcessor]. *)
Inductive ToolCallEvent : Type :=
| ToolCallDelta (i : nat) (idFragment nameFragment argumentFragment : option string)
| ToolCallComplete (id name arguments : string).

Inductive StreamEvent : Type :=
| Text (text : string)
| Reasoning (reasoning : string)
| ToolCall (e : ToolCallEvent)
| Usage (inputTokens outputTokens cacheReadTokens cacheWriteTokens : Z).

(** What [client.chat.completions.create] does with a request: the promise
    rejects, or it resolves to a stream that delivers chunks and then closes
    or fails. *)
Inductive ProviderResponse : Type :=
| Rejected (e : RawError)
| Streaming (chunks : list Chunk) (failure : option RawError).

(** ** Collaborators from other modules of the repository *)

(** [@shared/api], [../transform/openai-format] and the tool parameters of
    [../transform/tool-call-processor]: a constant and two pure
    conversions.  [getOpenAIToolParams] yields tool members only, so its
    spread overrides none of the members set before it. *)
Class Externals : Type := {
  azureOpenAiDefaultApiVersion : string;
  ClineStorageMessage : Type;
  OpenAiMessage : Type;
  convertToOpenAiMessages : list ClineStorageMessage -> list OpenAiMessage;
  ChatCompletionTool : Type;
  ToolParams : Type;
  getOpenAIToolParams : option (list ChatCompletionTool) -> ToolParams
}.

(** The interface [createMessage] uses of the [ToolCallProcessor] class:
    [new ToolCallProcessor()] and the generator [processToolCallDeltas],
    which updates the instance and yields tool-call events. *)
Class ToolCallProcessor : Type := {
  Processor : Type;
  new_ToolCallProcessor : Processor;
  processToolCallDeltas : Processor -> list ToolCallFragment -> Processor * list ToolCallEvent
}.

(** *** Tool-call reassembler

    The [ToolCallProcessor] class lives in
    [../transform/tool-call-processor], which is not among the sources;
    the module below is the reassembler of the specification. *)

Module Reassembler.

(** Modelled from the spec: the accumulator of the absent
    [ToolCallProcessor] for one tool-call index. *)
Record PendingToolCall : Type := mkPending {
  id : string;
  name : string;
  argumentBuffer : string
}.


(** Modelled from the spec: the per-request state of the absent
    [ToolCallProcessor], the accumulator of the index whose fragments are
    arriving and the indices already closed. *)
Record State : Type := mkState {
  pending : option (nat * PendingToolCall);
  closed : list nat
}.

(** Modelled from the spec: the absent [ToolCallProcessor] when it is
    constructed, no index seen. *)
Definition empty : State := mkState None [].

Definition is_closed (s : State) (i : nat) : bool := existsb (Nat.eqb i) (closed s).


(** Modelled from the spec: the absent [ToolCallProcessor] on the first
    fragment of an index, which records the id and name fragments verbatim
    and starts the argument string. *)
Definition begin_call (f : ToolCallFragment) : PendingToolCall :=
  mkPending (text_of (call_id f)) (text_of (function_name f))
    (text_of (function_arguments f)).

(** Modelled from the spec: the absent [ToolCallProcessor] on a further
    fragment of the accumulating index, merged by concatenation. *)
Definition append (p : PendingToolCall) (f : ToolCallFragment) : PendingToolCall :=
  mkPending (id p ++ text_of (call_id f)) (name p ++ text_of (function_name f))
    (argumentBuffer p ++ text_of (function_arguments f)).

(** Modelled from the spec: the event the absent [ToolCallProcessor]
    emits on closure; the arguments are the accumulated string, whether or
    not it parses. *)
Definition complete (p : PendingToolCall) : ToolCallEvent :=
  ToolCallComplete (id p) (name p) (argumentBuffer p).

(** Modelled from the spec: the event with which the absent
    [ToolCallProcessor] passes an applied fragment on. *)
Definition forward (f : ToolCallFragment) : ToolCallEvent :=
  ToolCallDelta (index f) (call_id f) (function_name f) (function_arguments f).

(** Modelled from the spec: one fragment in the absent
    [ToolCallProcessor].  A fragment for a closed index is not applied; a
    fragment for the accumulating index is appended; a fragment for a new
    distinct index closes the previous accumulator, which yields its
    [ToolCallComplete], and starts a new one.  Every applied fragment is
    forwarded as a [ToolCallDelta]. *)
Definition fragment (s : State) (f : ToolCallFragment) : State * list ToolCallEvent :=
  if is_closed s (index f) then (s, [])
  else
    match pending s with
    | Some (j, p) =>
        if (j =? index f)%nat
        then (mkState (Some (j, append p f)) (closed s), [forward f])
        else (mkState (Some (index f, begin_call f)) (j :: closed s),
              [complete p; forward f])
    | None => (mkState (Some (index f, begin_call f)) (closed s), [forward f])
    end.

(** Modelled from the spec: [processToolCallDeltas] of the absent
    [ToolCallProcessor], the fragments of one chunk in order. *)
Fixpoint processToolCallDeltas (s : State) (fs : list ToolCallFragment)
  : State * list ToolCallEvent :=
  match fs with
  | [] => (s, [])
  | f :: rest =>
      let '(s1, out1) := fragment s f in
      let '(s2, out2) := processToolCallDeltas s1 rest in
      (s2, out1 ++ out2)
  end.


End Reassembler.

(** Modelled from the spec: the absent [ToolCallProcessor] class as the
    reassembler above. *)
#[export] Instance spec_processor : ToolCallProcessor := {
  Processor := Reassembler.State;
  new_ToolCallProcessor := Reassembler.empty;
  processToolCallDeltas := Reassembler.processToolCallDeltas
}.

(** ** Client provisioner: [ensureClient] *)

Definition getApiVersion `{Externals} (o : MicrosoftFoundryHandlerOptions) : string :=
  if JS.truthy (microsoftFoundryApiVersion o)
  then text_of (microsoftFoundryApiVersion o)
  else azureOpenAiDefaultApiVersion.

(** One call of [ensureClient]: the value returned or thrown, the handler
    afterwards, and the clients built by [new AzureOpenAI] during the call. *)
Record Provisioned : Type := mkProvisioned {
  outcome : Result AzureOpenAI;
  handler_after : MicrosoftFoundryHandler;
  built : list AzureOpenAI
}.

Definition ensureClient `{Externals} (h : MicrosoftFoundryHandler) : Provisioned :=
  let o := options h in
  match client h with
  | Some c => mkProvisioned (Ok c) h []
  | None =>
      if negb (JS.truthy (microsoftFoundryEndpoint o)) then
        mkProvisioned (Throw msg_endpoint_required) h []
      else if negb (JS.truthy (microsoftFoundryApiKey o))
              && negb (flag (microsoftFoundryUseIdentity o)) then
        mkProvisioned (Throw msg_auth_required) h []
      else
        let endpoint := text_of (microsoftFoundryEndpoint o) in
        if flag (microsoftFoundryUseIdentity o) then
          match getAudienceScope o with
          | Ok scope =>
              let c := mkClient endpoint (azureADTokenProvider scope) (getApiVersion o) in
              mkProvisioned (Ok c) (mkHandler o (Some c)) [c]
          | Throw m =>
              mkProvisioned (Throw (getDetailedErrorMessage o (plain_error m))) h []
          end
        else
          let c := mkClient endpoint (apiKey (text_of (microsoftFoundryApiKey o)))
                     (getApiVersion o) in
          mkProvisioned (Ok c) (mkHandler o (Some c)) [c]
  end.

(** [n] consecutive calls on one instance: the outcomes in order, the
    handler at the end, and every client built on the way. *)
Fixpoint ensureClient_calls `{Externals} (n : nat) (h : MicrosoftFoundryHandler)
  : list (Result AzureOpenAI) * MicrosoftFoundryHandler * list AzureOpenAI :=
  match n with
  | O => ([], h, [])
  | S k =>
      let p := ensureClient h in
      let '(rs, h', cs) := ensureClient_calls k (handler_after p) in
      (outcome p :: rs, h', built p ++ cs)
  end.

(** ** Request shaper and streaming loop: [createMessage] *)

(** The first message is the object literal built from the system prompt;
    the others come from [convertToOpenAiMessages]. *)
Inductive ChatCompletionMessageParam `{Externals} : Type :=
| Prompt (role : string) (content : string)
| Converted (m : OpenAiMessage).

(** The argument of [client.chat.completions.create]. *)
Record ChatCompletionCreateParams `{Externals} : Type := mkParams {
  model : string;
  messages : list ChatCompletionMessageParam;
  temperature : JS.Member Q;
  reasoning_effort : JS.Member string;
  stream : bool;
  include_usage : bool;
  tool_params : ToolParams
}.

Definition modelInfo_of (o : MicrosoftFoundryHandlerOptions) (deploymentId : string)
  : ModelInfo :=
  match microsoftFoundryModelInfo o with
  | Some info => info
  | None => Provider.getModelCapabilities deploymentId
  end.

Definition reasoning_families : list string := ["o1"; "o3"; "o4"].

Definition isReasoningModel (o : MicrosoftFoundryHandlerOptions) (deploymentId : string)
  : bool :=
  let deploymentLower := JS.toLowerCase deploymentId in
  flag (supportsReasoning (modelInfo_of o deploymentId))
  || (existsb (fun prefix => JS.includes deploymentLower prefix) reasoning_families
      && negb (JS.includes deploymentLower "chat")).

Definition noTemperatureSupport (o : MicrosoftFoundryHandlerOptions) (deploymentId : string)
  : bool :=
  let deploymentLower := JS.toLowerCase deploymentId in
  JS.includes deploymentLower "gpt-5"
  || JS.includes deploymentLower "gpt5"
  || isReasoningModel o deploymentId.

Definition default_temperature : Q := 0.7.

(** The request [createMessage] builds before it calls the provider. *)
Definition shape `{Externals} (o : MicrosoftFoundryHandlerOptions) (deploymentId : string)
  (systemPrompt : string) (history : list ClineStorageMessage)
  (tools : option (list ChatCompletionTool)) : ChatCompletionCreateParams :=
  let temperature :=
    if noTemperatureSupport o deploymentId then JS.Undefined
    else JS.Present default_temperature in
  let role := if isReasoningModel o deploymentId then "developer" else "system" in
  let reasoningEffort : option string :=
    if isReasoningModel o deploymentId then
      Some (if JS.truthy (reasoningEffort o) then text_of (reasoningEffort o) else "medium")
    else None in
  let openAiMessages :=
    Prompt role systemPrompt :: map Converted (convertToOpenAiMessages history) in
  {| model := deploymentId;
     messages := openAiMessages;
     temperature := temperature;
     reasoning_effort :=
       if JS.truthy reasoningEffort then JS.Present (text_of reasoningEffort)
       else JS.Absent;
     stream := true;
     include_usage := true;
     tool_params := getOpenAIToolParams tools |}.

(** [chunk.choices?.[0]?.delta] *)
Definition delta_of (chunk : Chunk) : option Delta :=
  match choices chunk with
  | Some (first :: _) => delta first
  | _ => None
  end.

Definition num_or_zero (n : option Z) : Z :=
  match JS.or_num n (Some 0%Z) with
  | Some v => v
  | None => 0%Z
  end.

(** The body of the [for await] loop for one chunk: the processor
    afterwards and the events yielded, in order. *)
Definition on_chunk `{ToolCallProcessor} (p : Processor) (chunk : Chunk)
  : Processor * list StreamEvent :=
  let d := delta_of chunk in
  let texts :=
    match d with
    | Some d => if JS.truthy (content d) then [Text (text_of (content d))] else []
    | None => []
    end in
  let reasonings :=
    match d with
    | Some d =>
        if JS.truthy (reasoning_content d)
        then [Reasoning (text_of (reasoning_content d))] else []
    | None => []
    end in
  let '(p', calls) :=
    match d with
    | Some d =>
        match tool_calls d with
        | Some fragments =>
            let '(p', out) := processToolCallDeltas p fragments in
            (p', map ToolCall out)
        | None => (p, [])
        end
    | None => (p, [])
    end in
  let usages :=
    match usage chunk with
    | Some u =>
        [Usage (num_or_zero (prompt_tokens u)) (num_or_zero (completion_tokens u))
           (num_or_zero (cached_tokens u)) 0%Z]
    | None => []
    end in
  (p', texts ++ reasonings ++ calls ++ usages).

(** The whole [for await] loop; nothing follows it inside the [try]. *)
Fixpoint for_await `{ToolCallProcessor} (p : Processor) (chunks : list Chunk)
  : Processor * list StreamEvent :=
  match chunks with
  | [] => (p, [])
  | chunk :: rest =>
      let '(p1, out1) := on_chunk p chunk in
      let '(p2, out2) := for_await p1 rest in
      (p2, out1 ++ out2)
  end.

(** A drained call of [createMessage]: the events yielded in order, the
    requests passed to the provider, the message of the error thrown (if
    any), the processor when the loop was left, the handler afterwards. *)
Record Run `{Externals} `{ToolCallProcessor} : Type := mkRun {
  events : list StreamEvent;
  requests : list ChatCompletionCreateParams;
  thrown : option string;
  processor_at_end : option Processor;
  handler_at_end : MicrosoftFoundryHandler
}.

(** A call that throws before the loop is entered. *)
Definition failed_run `{Externals} `{ToolCallProcessor}
  (sent : list ChatCompletionCreateParams) (m : string) (h : MicrosoftFoundryHandler)
  : Run :=
  {| events := [];
     requests := sent;
     thrown := Some m;
     processor_at_end := None;
     handler_at_end := h |}.

(** One invocation of the generator body, drained by its consumer.  The
    [withRetry] decorator, which may invoke the body again, is outside the
    model. *)
Definition createMessage `{Externals} `{ToolCallProcessor}
  (create : AzureOpenAI -> ChatCompletionCreateParams -> ProviderResponse)
  (h : MicrosoftFoundryHandler)
  (systemPrompt : string) (history : list ClineStorageMessage)
  (tools : option (list ChatCompletionTool)) : Run :=
  let provisioned := ensureClient h in
  let h' := handler_after provisioned in
  match outcome provisioned with
  | Throw m => failed_run [] m h'
  | Ok client =>
      let o := options h in
      if negb (JS.truthy (microsoftFoundryDeploymentId o)) then
        failed_run [] msg_no_deployment h'
      else
        let deploymentId := text_of (microsoftFoundryDeploymentId o) in
        let request := shape o deploymentId systemPrompt history tools in
        match create client request with
        | Rejected e =>
            failed_run [request] (getDetailedErrorMessage o e) h'
        | Streaming chunks failure =>
            let '(p, out) := for_await new_ToolCallProcessor chunks in
            {| events := out;
               requests := [request];
               thrown := option_map (getDetailedErrorMessage o) failure;
               processor_at_end := Some p;
               handler_at_end := h' |}
        end
  end.

(** ** Observations on runs and requests *)

(** The role under which the system prompt travels. *)
Definition prompt_role `{Externals} (r : ChatCompletionCreateParams) : option string :=
  match messages r with
  | Prompt role _ :: _ => Some role
  | _ => None
  end.

Definition is_usage (e : StreamEvent) : bool :=
  match e with
  | Usage _ _ _ _ => true
  | _ => false
  end.


(** The usage event [createMessage] builds from one usage block. *)
Definition usage_event (u : UsageBlock) : StreamEvent :=
  Usage (num_or_zero (prompt_tokens u)) (num_or_zero (completion_tokens u))
    (num_or_zero (cached_tokens u)) 0%Z.

(** The usage blocks of a provider stream, in arrival order. *)
Fixpoint usage_blocks (chunks : list Chunk) : list UsageBlock :=
  match chunks with
  | [] => []
  | chunk :: rest =>
      match usage chunk with
      | Some u => u :: usage_blocks rest
      | None => usage_blocks rest
      end
  end.


(** A provider that answers every request with the same response. *)
Definition replay `{Externals} (response : ProviderResponse)
  : AzureOpenAI -> ChatCompletionCreateParams -> ProviderResponse :=
  fun _ _ => response.

(** ** The statements of the specification, as definitions *)

(** Reasoning class as the specification words it: declared by the
    capability record, or the identifier begins with [o1], [o3] or [o4]
    and is not a chat variant. *)
Definition prefix_reasoning_class (info : ModelInfo) (deploymentId : string) : bool :=
  let lower := JS.toLowerCase deploymentId in
  flag (supportsReasoning info)
  || (existsb (fun prefix => JS.startsWith lower prefix) reasoning_families
      && negb (JS.includes lower "chat")).

(** Reasoning class as the handler decides it: declared by the capability
    record, or the lower-cased identifier contains [o1], [o3] or [o4]
    somewhere and does not contain [chat]. *)
Definition reasoning_class (info : ModelInfo) (deploymentId : string) : Prop :=
  let lower := JS.toLowerCase deploymentId in
  supportsReasoning info = Some true
  \/ ((JS.includes lower "o1" = true \/ JS.includes lower "o3" = true
       \/ JS.includes lower "o4" = true)
      /\ JS.includes lower "chat" = false).

(** The fixed-temperature family: the lower-cased identifier contains
    [gpt-5] or [gpt5]. *)
Definition fixed_temperature_family (deploymentId : string) : Prop :=
  let lower := JS.toLowerCase deploymentId in
  JS.includes lower "gpt-5" = true \/ JS.includes lower "gpt5" = true.

(** The effort sent for a reasoning-class model: the caller's hint, or
    [medium] when there is none. *)
Definition effort_or_medium (hint : option string) : string :=
  match hint with
  | Some h => if h =? EmptyString then "medium" else h
  | None => "medium"
  end.

(** The error taxonomy of the specification. *)
Inductive ErrorKind : Type :=
| Auth
| Authorization
| NotFound
| RateLimited
| Network
| Configuration
| Unknown.

(** One row of the ordered rule table: the row fires when the status code
    is [on_status] or the message contains one of [on_message], and, when
    [with_hint] is not empty, the message also contains one of the hints. *)
Record Rule : Type := mkRule {
  on_status : option Z;
  on_message : list string;
  with_hint : list string;
  kind : ErrorKind;
  deployment_specific : bool
}.

Definition status_of (e : RawError) : option Z := JS.or_num (status e) (statusCode e).

Definition mentions (e : RawError) (fragments : list string) : bool :=
  existsb (fun fragment => JS.includes (message e) fragment) fragments.

Definition fires (e : RawError) (r : Rule) : bool :=
  (match on_status r with
   | Some code => is_code (status_of e) code
   | None => false
   end || mentions e (on_message r))
  && match with_hint r with
     | [] => true
     | hints => mentions e hints
     end.

Definition deployment_hints : list string :=
  ["deployment"; "Deployment"; "DeploymentNotFound"].

(** The rule table in priority order, for a given list of message
    fragments that mark a network failure. *)
Definition rule_table (network_fragments : list string) : list Rule :=
  [ mkRule (Some 401%Z) ["401"; "Unauthorized"] [] Auth false;
    mkRule (Some 403%Z) ["403"; "Forbidden"] [] Authorization false;
    mkRule (Some 404%Z) ["404"; "Not Found"] deployment_hints NotFound true;
    mkRule (Some 404%Z) ["404"; "Not Found"] [] NotFound false;
    mkRule (Some 429%Z) ["429"; "Too Many Requests"] [] RateLimited false;
    mkRule None network_fragments [] Network false ].

(** The table with the network fragments the specification names: DNS
    failure and refused connection. *)
Definition stated_rules : list Rule := rule_table ["ENOTFOUND"; "ECONNREFUSED"].

(** The table with the network fragments the handler tests. *)
Definition rules : list Rule := rule_table ["ENOTFOUND"; "ECONNREFUSED"; "network"].

Definition classify (table : list Rule) (e : RawError) : option Rule :=
  find (fires e) table.

Definition kind_of (verdict : option Rule) : ErrorKind :=
  match verdict with
  | Some r => kind r
  | None => Unknown
  end.

(** The text surfaced for a verdict. *)
Definition remediation (o : MicrosoftFoundryHandlerOptions) (e : RawError)
  (verdict : option Rule) : string :=
  match verdict with
  | None => msg_default (message e)
  | Some r =>
      match kind r with
      | Auth => if flag (microsoftFoundryUseIdentity o) then msg_relogin else msg_invalid_key
      | Authorization => msg_forbidden
      | NotFound =>
          if deployment_specific r
          then msg_deployment_not_found (microsoftFoundryDeploymentId o)
          else msg_not_found
      | RateLimited => msg_rate_limit
      | Network => msg_network
      | Configuration | Unknown => msg_default (message e)
      end
  end.

(** The longest table key that is a prefix of the name, with its record. *)
Fixpoint longest_prefix (table : CapabilityTable) (modelName : string)
  : option (string * ModelInfo) :=
  match table with
  | [] => None
  | (key, caps) :: rest =>
      let later := longest_prefix rest modelName in
      if JS.startsWith modelName key then
        match later with
        | Some (key', caps') =>
            if (String.length key <? String.length key')%nat
            then Some (key', caps') else Some (key, caps)
        | None => Some (key, caps)
        end
      else later
  end.

(** The table keys that are prefixes of the name. *)
Definition matching_keys (table : CapabilityTable) (modelName : string) : list string :=
  map fst (filter (fun entry => JS.startsWith modelName (fst entry)) table).

(** The configuration faults on which a handler without a client cannot
    provision one. *)
Definition endpoint_absent (o : MicrosoftFoundryHandlerOptions) : Prop :=
  JS.truthy (microsoftFoundryEndpoint o) = false.

Definition no_auth_selected (o : MicrosoftFoundryHandlerOptions) : Prop :=
  JS.truthy (microsoftFoundryApiKey o) = false
  /\ flag (microsoftFoundryUseIdentity o) = false.

Definition stack_without_scope (o : MicrosoftFoundryHandlerOptions) : Prop :=
  flag (microsoftFoundryUseIdentity o) = true
  /\ microsoftFoundryCloudEnvironment o = Some stack
  /\ JS.truthy (microsoftFoundryCustomScope o) = false
  /\ JS.includes (JS.toLowerCase (text_of (microsoftFoundryEndpoint o))) "azure.us" = false
  /\ JS.includes (JS.toLowerCase (text_of (microsoftFoundryEndpoint o))) "azure.com" = false.

Definition fails {A : Type} (r : Result A) : Prop := exists m, r = Throw m.


(** ** Sample collaborators and configurations *)

Definition sample_externals : Externals :=
  {| azureOpenAiDefaultApiVersion := "2024-10-21";
     ClineStorageMessage := string;
     OpenAiMessage := string;
     convertToOpenAiMessages := fun history => history;
     ChatCompletionTool := string;
     ToolParams := option (list string);
     getOpenAIToolParams := fun tools => tools |}.

(** Options as the handler's tests build them: endpoint, API key and a
    deployment. *)
Definition key_options (deploymentId : option string) (hint : option string)
  : MicrosoftFoundryHandlerOptions :=
  mkOptions (Some "https://example.com") (Some "test-key") deploymentId
    None None None None None hint.

(** Identity authentication against an Azure Stack endpoint, no custom
    scope configured. *)
Definition stack_options : MicrosoftFoundryHandlerOptions :=
  mkOptions (Some "https://foundry.contoso.local") None (Some "gpt-4o")
    (Some stack) (Some true) None None None None.

Definition text_chunk (t : string) : Chunk :=
  mkChunk (Some [mkChoice (Some (mkDelta (Some t) None None))]) None.

Definition usage_chunk (input output : Z) : Chunk :=
  mkChunk (Some []) (Some (mkUsage (Some input) (Some output) None)).


(** A chunk object with none of the members the loop reads. *)
Definition bare_chunk : Chunk := mkChunk None None.



(** The request the handler builds for the deployment "prod-o3-mini" with
    the sample collaborators, no reasoning hint and no tools. *)
Definition infix_request : ChatCompletionCreateParams (H := sample_externals) :=
  shape (H := sample_externals) (key_options (Some "prod-o3-mini") None)
    "prod-o3-mini" "sys" [] None.

(** ** The claims that the handler does not meet, as stated *)

(** Capability resolution as the specification describes it, case by
    case. *)
Inductive Resolution (table : CapabilityTable) (default_info : ModelInfo)
  (modelName : string) : ModelInfo -> Prop :=
| exact_key caps :
    own table modelName = Some caps ->
    Resolution table default_info modelName (spread default_info caps)
| known_prefix prefix caps :
    own table modelName = None ->
    In (prefix, caps) table ->
    JS.startsWith modelName prefix = true ->
    Resolution table default_info modelName (spread default_info caps)
| wholly_unknown :
    own table modelName = None ->
    (forall prefix caps, In (prefix, caps) table -> JS.startsWith modelName prefix = false) ->
    Resolution table default_info modelName default_info.

(** A name matched by several keys resolves to the record of the longest
    one. *)
Definition longest_prefix_selected (table : CapabilityTable) (default_info : ModelInfo)
  (modelName : string) : Prop :=
  own table modelName = None ->
  (1 < List.length (matching_keys table modelName))%nat ->
  forall key caps,
    longest_prefix table modelName = Some (key, caps) ->
    resolve table default_info modelName = spread default_info caps.


(** At most one usage event over the whole run. *)
Definition usage_at_most_once `{Externals} `{ToolCallProcessor} (run : Run) : Prop :=
  (List.length (filter is_usage (events run)) <= 1)%nat.

(** The request is shaped by the reasoning class as the specification
    words it. *)
Definition shaped_by_prefix_class `{Externals} (o : MicrosoftFoundryHandlerOptions)
  (r : ChatCompletionCreateParams) : Prop :=
  if prefix_reasoning_class (modelInfo_of o (model r)) (model r)
  then prompt_role r = Some "developer"
       /\ reasoning_effort r = JS.Present (effort_or_medium (reasoningEffort o))
  else prompt_role r = Some "system" /\ reasoning_effort r = JS.Absent.

(** The message is the one the stated rule table leads to. *)
Definition classified_as_stated (o : MicrosoftFoundryHandlerOptions) (e : RawError) : Prop :=
  getDetailedErrorMessage o e = remediation o e (classify stated_rules e).

(** Provisioning on a fresh instance fails exactly on the two stated
    faults. *)
Definition fails_only_on_stated_faults `{Externals} (o : MicrosoftFoundryHandlerOptions)
  : Prop :=
  fails (outcome (ensureClient (new_handler o)))
  <-> endpoint_absent o \/ no_auth_selected o.

(** ** Statements for the resolver, the temperature and the tool-call
    events *)

(** [result] is [caps] merged over [base], member by member: a member
    that [caps] defines is taken from [caps], every other one from
    [base]. *)
Definition merged_over (base caps result : ModelInfo) : Prop :=
  maxTokens result
  = match maxTokens caps with Some v => Some v | None => maxTokens base end
  /\ contextWindow result
     = match contextWindow caps with Some v => Some v | None => contextWindow base end
  /\ supportsImages result
     = match supportsImages caps with Some v => Some v | None => supportsImages base end
  /\ supportsPromptCache result
     = match supportsPromptCache caps with
       | Some v => Some v
       | None => supportsPromptCache base
       end
  /\ supportsReasoning result
     = match supportsReasoning caps with
       | Some v => Some v
       | None => supportsReasoning base
       end
  /\ inputPrice result
     = match inputPrice caps with Some v => Some v | None => inputPrice base end
  /\ outputPrice result
     = match outputPrice caps with Some v => Some v | None => outputPrice base end.

(** Capability resolution by cases, stated on the table itself: a name
    that is a key gives the record of that key merged over the default
    record; a name that is no key but has keys as prefixes gives the record
    of the first such key in table order, merged over the default record;
    a name that no key is a prefix of gives the default record. *)
Definition resolution_cases (table : CapabilityTable) (default_info : ModelInfo)
  (modelName : string) (result : ModelInfo) : Prop :=
  (forall caps, In (modelName, caps) table -> merged_over default_info caps result)
  /\ ((forall caps, ~ In (modelName, caps) table) ->
      (exists prefix caps, In (prefix, caps) table /\ String.prefix prefix modelName = true) ->
      exists before prefix caps after,
        table = before ++ (prefix, caps) :: after
        /\ String.prefix prefix modelName = true
        /\ (forall k c, In (k, c) before -> String.prefix k modelName = false)
        /\ merged_over default_info caps result)
  /\ ((forall prefix caps, In (prefix, caps) table -> String.prefix prefix modelName = false) ->
      result = default_info).

Fixpoint distinctb (l : list string) : bool :=
  match l with
  | [] => true
  | s :: rest => negb (existsb (String.eqb s) rest) && distinctb rest
  end.

(** The temperature rule with the reasoning class as the specification
    words it (identifier beginning with a reasoning-family prefix). *)
Definition temperature_by_prefix_class `{Externals} (o : MicrosoftFoundryHandlerOptions)
  (r : ChatCompletionCreateParams) : Prop :=
  if prefix_reasoning_class (modelInfo_of o (model r)) (model r)
     || JS.includes (JS.toLowerCase (model r)) "gpt-5"
     || JS.includes (JS.toLowerCase (model r)) "gpt5"
  then JS.on_wire (temperature r) = None
  else JS.on_wire (temperature r) = Some default_temperature.






(** * Further parts of the repository *)

From Stdlib Require Import DecimalString.

(** ** The handler's model description: [getModel] *)

Module ApiHandlerModel.

Record t : Type := mk {
  id : string;
  info : ModelInfo
}.

End ApiHandlerModel.

Definition getModel (h : MicrosoftFoundryHandler) : ApiHandlerModel.t :=
  let deploymentId := text_of (microsoftFoundryDeploymentId (options h)) in
  ApiHandlerModel.mk deploymentId
    (match microsoftFoundryModelInfo (options h) with
     | Some info => info
     | None => Provider.getModelCapabilities deploymentId
     end).

(** ** Observations on the events of a run *)

(** The text deltas of a run, joined in order. *)
Fixpoint yielded_text (evs : list StreamEvent) : string :=
  match evs with
  | [] => EmptyString
  | Text t :: rest => t ++ yielded_text rest
  | _ :: rest => yielded_text rest
  end.

(** The reasoning deltas of a run, joined in order. *)
Fixpoint yielded_reasoning (evs : list StreamEvent) : string :=
  match evs with
  | [] => EmptyString
  | Reasoning r :: rest => r ++ yielded_reasoning rest
  | _ :: rest => yielded_reasoning rest
  end.

(** The [content] members the provider streamed, joined in order. *)
Fixpoint streamed_text (chunks : list Chunk) : string :=
  match chunks with
  | [] => EmptyString
  | chunk :: rest =>
      match delta_of chunk with
      | Some d => text_of (content d)
      | None => EmptyString
      end ++ streamed_text rest
  end.

(** The [reasoning_content] members the provider streamed, joined in
    order. *)
Fixpoint streamed_reasoning (chunks : list Chunk) : string :=
  match chunks with
  | [] => EmptyString
  | chunk :: rest =>
      match delta_of chunk with
      | Some d => text_of (reasoning_content d)
      | None => EmptyString
      end ++ streamed_reasoning rest
  end.

(** What holds of every event the loop itself builds. *)
Definition well_formed_event (e : StreamEvent) : Prop :=
  match e with
  | Text t => t <> EmptyString
  | Reasoning r => r <> EmptyString
  | Usage _ _ _ cacheWriteTokens => cacheWriteTokens = 0%Z
  | ToolCall _ => True
  end.

(** The limits of a capability record are all defined, positive, and the
    output limit does not exceed the context window. *)
Definition sound_limits (m : ModelInfo) : Prop :=
  exists maxT window images cache,
    maxTokens m = Some maxT /\ contextWindow m = Some window
    /\ supportsImages m = Some images /\ supportsPromptCache m = Some cache
    /\ (0 < maxT <= window)%Z.

Definition sound_limitsb (m : ModelInfo) : bool :=
  match maxTokens m, contextWindow m, supportsImages m, supportsPromptCache m with
  | Some maxT, Some window, Some _, Some _ => (0 <? maxT)%Z && (maxT <=? window)%Z
  | _, _, _, _ => false
  end.

(** ** String helpers of the discovery code *)

(** [s.replace] of the pattern [/\/$/] by the empty string: one slash at
    the very end is removed. *)
Fixpoint strip_trailing_slash (s : string) : string :=
  match s with
  | EmptyString => EmptyString
  | String c rest =>
      match rest with
      | EmptyString => if Ascii.eqb c "/" then EmptyString else s
      | _ => String c (strip_trailing_slash rest)
      end
  end.

(** [s.split(".")] *)
Fixpoint split_dots (s : string) : list string :=
  match s with
  | EmptyString => [EmptyString]
  | String c rest =>
      if Ascii.eqb c "." then EmptyString :: split_dots rest
      else
        match split_dots rest with
        | first :: others => String c first :: others
        | [] => [String c EmptyString]
        end
  end.

(** The character class [[a-z0-9-]] under the [i] flag. *)
Definition resource_char (c : ascii) : bool :=
  let n := nat_of_ascii c in
  ((97 <=? n)%nat && (n <=? 122)%nat)
  || ((65 <=? n)%nat && (n <=? 90)%nat)
  || ((48 <=? n)%nat && (n <=? 57)%nat)
  || (n =? 45)%nat.

Fixpoint all_chars (p : ascii -> bool) (s : string) : bool :=
  match s with
  | EmptyString => true
  | String c rest => p c && all_chars p rest
  end.

(** [/^[a-z0-9-]+$/i.test(s)] *)
Definition valid_resource_name (s : string) : bool :=
  negb (s =? EmptyString) && all_chars resource_char s.

(** The match of
    [/^([^.]+)\.(openai|cognitiveservices)\.(azure\.com|azure\.us)$/i]
    against a lower-cased hostname: its first capture group.  The pattern
    is anchored and its dots are literal, so it matches exactly the
    hostnames of four dot-separated labels of that form. *)
Definition standard_resource (hostname : string) : option string :=
  match split_dots hostname with
  | [resource; service; azure; top] =>
      if negb (resource =? EmptyString)
         && ((service =? "openai") || (service =? "cognitiveservices"))
         && (azure =? "azure")
         && ((top =? "com") || (top =? "us"))
      then Some resource else None
  | _ => None
  end.

(** ** Deployment discovery through the Azure CLI
    ([getMicrosoftFoundryDeployments], first version) *)

Module DeploymentsCli.

(** [url_hostname endpoint] is [new URL(endpoint).hostname], [None] when
    the constructor throws. *)
Definition extractResourceNameFromEndpoint (url_hostname : string -> option string)
  (endpoint : string) : option string :=
  match url_hostname endpoint with
  | Some host => standard_resource (JS.toLowerCase host)
  | None => None
  end.

End DeploymentsCli.

(** ** Deployment discovery through Azure Resource Manager
    ([getMicrosoftFoundryDeployments], second version) *)

Module DeploymentsArm.

Definition extractResourceNameFromEndpoint (url_hostname : string -> option string)
  (endpoint : string) : option string :=
  match url_hostname endpoint with
  | Some host =>
      let hostname := JS.toLowerCase host in
      match standard_resource hostname with
      | Some resource => Some resource
      | None =>
          match split_dots hostname with
          | first :: _ => Some first
          | [] => None
          end
      end
  | None => None
  end.

Record MicrosoftFoundryDeploymentsRequest : Type := mkRequest {
  endpoint : option string;
  armEndpoint : option string
}.

Record Deployment : Type := mkDeployment {
  id : string;
  model : string;
  modelVersion : string
}.

Record MicrosoftFoundryDeploymentsResponse : Type := mkResponse {
  deployments : list Deployment;
  error : option string
}.

Definition failure (m : string) : MicrosoftFoundryDeploymentsResponse :=
  mkResponse [] (Some m).

(** One element of the [value] array of the deployments listing;
    [model_name] and [model_version] stand for [properties?.model?.name]
    and [properties?.model?.version]. *)
Record ListedDeployment : Type := mkListed {
  name : string;
  model_name : option string;
  model_version : option string
}.

(** The members read of a parsed response body: [data] of the Resource
    Graph answer (the [id] of each row) and [value] of the deployments
    listing. *)
Record Body : Type := mkBody {
  data : option (list string);
  value : option (list ListedDeployment)
}.

(** The members read of a [fetch] response; [text] and [json] may
    throw. *)
Record Response : Type := mkHttp {
  ok : bool;
  status : nat;
  statusText : string;
  text : Result string;
  json : Result Body
}.

(** A call of [fetch]: the URL, the method, the Authorization header and
    the query of the JSON body, if any. *)
Record Fetch : Type := mkFetch {
  url : string;
  method : string;
  authorization : string;
  query : option string
}.

(** The environment of one call: URL parsing, the credential and the
    network. *)
Record World : Type := mkWorld {
  url_hostname : string -> option string;
  getToken : string -> Result (option string);
  fetch : Fetch -> Result Response
}.

(** What one call did: the audience scopes it asked a token for and the
    requests it sent, in order, and what it returned. *)
Record Call : Type := mkCall {
  scopes : list string;
  fetched : list Fetch;
  returned : MicrosoftFoundryDeploymentsResponse
}.

Definition decimal (n : nat) : string := NilZero.string_of_uint (Nat.to_uint n).

Definition commercial_management : string := "https://management.azure.com".
Definition government_management : string := "https://management.usgovcloudapi.net".

Definition managementEndpoint (endpoint : string) (armEndpoint : option string) : string :=
  if JS.truthy armEndpoint then strip_trailing_slash (text_of armEndpoint)
  else if JS.includes (JS.toLowerCase endpoint) ".azure.us" then government_management
  else commercial_management.

Definition audienceScope (endpoint : string) (armEndpoint : option string) : string :=
  if JS.truthy armEndpoint
  then (strip_trailing_slash (text_of armEndpoint) ++ "/.default")%string
  else if JS.includes (JS.toLowerCase endpoint) ".azure.us"
       then "https://management.usgovcloudapi.net/.default"
       else "https://management.azure.com/.default".

Definition graph_query (resourceName : string) : string :=
  "Resources | where name =~ '" ++ resourceName
  ++ "' and type =~ 'microsoft.cognitiveservices/accounts' | project id, resourceGroup, subscriptionId".

Definition graph_request (management token resourceName : string) : Fetch :=
  mkFetch (management ++ "/providers/Microsoft.ResourceGraph/resources?api-version=2021-03-01")
    "POST" ("Bearer " ++ token) (Some (graph_query resourceName)).

Definition listing_request (management token resourceId : string) : Fetch :=
  mkFetch (management ++ resourceId ++ "/deployments?api-version=2023-05-01")
    "GET" ("Bearer " ++ token) None.

Definition to_proto (d : ListedDeployment) : Deployment :=
  mkDeployment (name d)
    (match model_name d with Some m => m | None => name d end)
    (match model_version d with Some v => v | None => EmptyString end).

Definition http_error (what : string) (r : Response) (errorText : string) : string :=
  what ++ decimal (status r) ++ " " ++ statusText r ++ " - " ++ errorText.

(** The [catch] clause. *)
Definition caught (errorMessage : string) : MicrosoftFoundryDeploymentsResponse :=
  if JS.includes errorMessage "CredentialUnavailableError"
     || JS.includes errorMessage "Could not retrieve token"
  then failure "Authentication failed. Please check your Azure CLI login status ('az login') or environment variables."
  else failure ("Reference error: " ++ errorMessage).

(** The second request of the [try] block and what follows it. *)
Definition list_deployments (w : World) (management token resourceId : string)
  : list Fetch * Result MicrosoftFoundryDeploymentsResponse :=
  let request := listing_request management token resourceId in
  ([request],
   match fetch w request with
   | Throw m => Throw m
   | Ok response =>
       if negb (ok response) then
         match text response with
         | Throw m => Throw m
         | Ok errorText => Throw (http_error "Failed to list deployments: " response errorText)
         end
       else
         match json response with
         | Throw m => Throw m
         | Ok body =>
             match value body with
             | None | Some [] => Ok (failure "No deployments found for this resource.")
             | Some listed => Ok (mkResponse (map to_proto listed) None)
             end
         end
   end).

(** The [try] block: the scopes asked for, the requests sent, and the
    response returned or the message of the error thrown. *)
Definition attempt (w : World) (endpoint : string) (armEndpoint : option string)
  (resourceName : string)
  : list string * list Fetch * Result MicrosoftFoundryDeploymentsResponse :=
  let management := managementEndpoint endpoint armEndpoint in
  let scope := audienceScope endpoint armEndpoint in
  match getToken w scope with
  | Throw m => ([scope], [], Throw m)
  | Ok None =>
      ([scope], [], Throw "Failed to acquire access token for Azure Management API.")
  | Ok (Some token) =>
      let request := graph_request management token resourceName in
      match fetch w request with
      | Throw m => ([scope], [request], Throw m)
      | Ok response =>
          if negb (ok response) then
            match text response with
            | Throw m => ([scope], [request], Throw m)
            | Ok errorText =>
                ([scope], [request],
                 Throw (http_error "Resource Graph query failed: " response errorText))
            end
          else
            match json response with
            | Throw m => ([scope], [request], Throw m)
            | Ok body =>
                match data body with
                | None | Some [] =>
                    ([scope], [request],
                     Ok (failure ("Could not find Azure OpenAI resource '" ++ resourceName
                                  ++ "' in your visible subscriptions. Ensure you are logged in to the correct tenant.")))
                | Some (resourceId :: _) =>
                    let '(sent, result) := list_deployments w management token resourceId in
                    ([scope], request :: sent, result)
                end
            end
      end
  end.

Definition getMicrosoftFoundryDeployments (w : World)
  (request : MicrosoftFoundryDeploymentsRequest) : Call :=
  if negb (JS.truthy (endpoint request)) then
    mkCall [] [] (failure "No endpoint URL provided")
  else
    let endpoint := text_of (endpoint request) in
    match extractResourceNameFromEndpoint (url_hostname w) endpoint with
    | None => mkCall [] [] (failure "Could not extract resource name from endpoint URL.")
    | Some resourceName =>
        if resourceName =? EmptyString then
          mkCall [] [] (failure "Could not extract resource name from endpoint URL.")
        else if negb (valid_resource_name resourceName) then
          mkCall [] []
            (failure "Invalid resource name format. Resource names must be alphanumeric and can contain hyphens.")
        else
          let '(asked, sent, result) := attempt w endpoint (armEndpoint request) resourceName in
          mkCall asked sent
            match result with
            | Ok response => response
            | Throw errorMessage => caught errorMessage
            end
    end.

End DeploymentsArm.

(** ** The settings view ([MicrosoftFoundryProvider]) *)

Module SettingsView.

(** A discovered deployment as the view keeps it. *)
Record Deployment : Type := mkDeployment {
  id : string;
  model : string
}.

(** A deployment as the models service returns it. *)
Record Listed : Type := mkListed {
  listed_id : option string;
  listed_model : option string
}.

Record Response : Type := mkResponse {
  deployments : option (list Listed);
  error : option string
}.

(** What awaiting the models service gives: a response, or a rejection
    with an [Error] (its message) or with some other value. *)
Inductive Reply : Type :=
| Answered (response : Response)
| RejectedWith (message : option string).

(** The local state of the component. *)
Record State : Type := mkState {
  deployments_shown : list Deployment;
  isDiscovering : bool;
  discoveryError : option string
}.

Definition to_deployment (d : Listed) : Deployment :=
  mkDeployment (text_of (listed_id d))
    (match listed_model d with
     | Some m => m
     | None => text_of (listed_id d)
     end).

(** [discoverDeployments], run to completion: the endpoints the models
    service was asked about, and the state afterwards. *)
Definition discoverDeployments (service : string -> Reply) (endpoint : string) (s : State)
  : list string * State :=
  if endpoint =? EmptyString then
    ([], mkState (deployments_shown s) (isDiscovering s)
           (Some "Please enter an endpoint URL first"))
  else
    let asked := strip_trailing_slash endpoint in
    ([asked],
     match service asked with
     | Answered response =>
         if JS.truthy (error response) then
           mkState (deployments_shown s) false (Some (text_of (error response)))
         else
           let discoveredDeployments :=
             map to_deployment
               (match deployments response with Some l => l | None => [] end) in
           mkState discoveredDeployments false
             (match discoveredDeployments with
              | [] => Some "No deployments found. Deploy a model in Azure AI Foundry first, then click Refresh."
              | _ => None
              end)
     | RejectedWith (Some message) => mkState (deployments_shown s) false (Some message)
     | RejectedWith None =>
         mkState (deployments_shown s) false (Some "Failed to discover deployments")
     end).

(** [handleDeploymentChange]: the values handed to
    [handleModeFieldsChange], the deployment identifier and the model
    information stored with it. *)
Definition handleDeploymentChange (shown : list Deployment) (deploymentId : string)
  : string * ModelInfo :=
  let deployment := find (fun d => id d =? deploymentId) shown in
  (deploymentId,
   match deployment with
   | Some d => Webview.getModelCapabilities (model d)
   | None => Webview.DEFAULT_MODEL_INFO
   end).

End SettingsView.

(** ** The Azure OpenAI settings view ([AzureOpenAIProvider]) *)

Module AzureOpenAIView.

Definition detectEndpointType (baseUrl : option string) : string :=
  if negb (JS.truthy baseUrl) then "Unknown"
  else
    let url := JS.toLowerCase (text_of baseUrl) in
    if JS.includes url ".services.ai.azure.com" || JS.includes url ".ai.azure.com"
    then "Azure AI Foundry"
    else if JS.includes url ".openai.azure.com" || JS.includes url "azure.com"
    then "Azure OpenAI"
    else "Unknown".

End AzureOpenAIView.

(** ** Sample worlds for the discovery code *)

(** A URL parser for the samples: the text between the scheme and the
    first slash. *)
Fixpoint until_slash (s : string) : string :=
  match s with
  | EmptyString => EmptyString
  | String c rest => if Ascii.eqb c "/" then EmptyString else String c (until_slash rest)
  end.

Definition sample_hostname (endpoint : string) : option string :=
  if String.prefix "https://" endpoint
  then Some (until_slash (String.substring 8 (String.length endpoint - 8) endpoint))
  else None.

Definition sample_listing : list DeploymentsArm.ListedDeployment :=
  [ DeploymentsArm.mkListed "prod-gpt4o" (Some "gpt-4o") (Some "2024-08-06");
    DeploymentsArm.mkListed "scratch" None None ].

(** A network on which the Resource Graph knows one account and the
    account lists two deployments. *)
Definition sample_world : DeploymentsArm.World :=
  DeploymentsArm.mkWorld sample_hostname
    (fun _ => Ok (Some "tok"))
    (fun request =>
       match DeploymentsArm.query request with
       | Some _ =>
           Ok (DeploymentsArm.mkHttp true 200 "OK" (Ok EmptyString)
                 (Ok (DeploymentsArm.mkBody (Some ["/subscriptions/s/accounts/contoso"]) None)))
       | None =>
           Ok (DeploymentsArm.mkHttp true 200 "OK" (Ok EmptyString)
                 (Ok (DeploymentsArm.mkBody None (Some sample_listing))))
       end).


(** * Theorems *)

(** ** Capability resolver *)

Lemma first_prefix_some (table : CapabilityTable) (modelName prefix : string)
  (caps : ModelInfo) :
  first_prefix table modelName = Some (prefix, caps) ->
  In (prefix, caps) table /\ JS.startsWith modelName prefix = true.
Proof.
  induction table as [|[key c] rest IH]; simpl; [discriminate|].
  destruct (JS.startsWith modelName key) eqn:Hkey.
  - intros [= -> ->]. split; [now left|assumption].
  - intros Hrest. destruct (IH Hrest) as [Hin Hp]. split; [now right|assumption].
Qed.

Lemma first_prefix_none (table : CapabilityTable) (modelName : string) :
  first_prefix table modelName = None ->
  forall prefix caps, In (prefix, caps) table -> JS.startsWith modelName prefix = false.
Proof.
  induction table as [|[key c] rest IH]; simpl; [intros _ ? ? []|].
  destruct (JS.startsWith modelName key) eqn:Hkey; [discriminate|].
  intros Hrest prefix caps [[= <- <-]|Hin]; [assumption|].
  now apply (IH Hrest prefix caps).
Qed.

Lemma first_prefix_skip (before after : CapabilityTable) (modelName : string) :
  (forall k c, In (k, c) before -> JS.startsWith modelName k = false) ->
  first_prefix (before ++ after) modelName = first_prefix after modelName.
Proof.
  induction before as [|[key c] rest IH]; simpl; intros Hnone; [reflexivity|].
  rewrite (Hnone key c) by now left.
  apply IH. intros k c' Hin. apply (Hnone k c'). now right.
Qed.

Lemma resolve_resolution (table : CapabilityTable) (default_info : ModelInfo)
  (modelName : string) :
  Resolution table default_info modelName (resolve table default_info modelName).
Proof.
  unfold resolve.
  destruct (own table modelName) as [caps|] eqn:Hown.
  - now apply exact_key.
  - destruct (first_prefix table modelName) as [[prefix caps]|] eqn:Hfirst.
    + destruct (first_prefix_some _ _ _ _ Hfirst) as [Hin Hp].
      now apply known_prefix with prefix.
    + apply wholly_unknown; [assumption|].
      now apply first_prefix_none.
Qed.

Lemma own_of_distinct_keys (table : CapabilityTable) (key : string) (caps : ModelInfo) :
  NoDup (map fst table) -> In (key, caps) table -> own table key = Some caps.
Proof.
  induction table as [|[k c] rest IH]; simpl; intros Hnodup Hin; [destruct Hin|].
  inversion Hnodup as [|? ? Hfresh Hrest]; subst.
  destruct Hin as [[= -> ->]|Hin].
  - now rewrite String.eqb_refl.
  - destruct (String.eqb_spec k key) as [->|_]; [|now apply IH].
    elim Hfresh. change key with (fst (key, caps)). now apply in_map.
Qed.

Lemma distinctb_NoDup (l : list string) : distinctb l = true -> NoDup l.
Proof.
  induction l as [|s rest IH]; simpl; intros Hd; [constructor|].
  apply andb_true_iff in Hd as [Hfresh Hrest].
  constructor; [|now apply IH].
  intros Hin. apply negb_true_iff in Hfresh.
  assert (Hex : existsb (String.eqb s) rest = true).
  { apply existsb_exists. exists s. split; [exact Hin|apply String.eqb_refl]. }
  congruence.
Qed.

Lemma own_none (table : CapabilityTable) (modelName : string) :
  (forall key caps, In (key, caps) table -> key <> modelName) ->
  own table modelName = None.
Proof.
  induction table as [|[k c] rest IH]; simpl; intros Hkeys; [reflexivity|].
  destruct (String.eqb_spec k modelName) as [Heq|_].
  - elim (Hkeys k c (or_introl eq_refl) Heq).
  - apply IH. intros key caps Hin. apply (Hkeys key caps). now right.
Qed.

Lemma prefix_refl (s : string) : String.prefix s s = true.
Proof.
  induction s as [|c s IH]; simpl; [reflexivity|].
  destruct (Ascii.ascii_dec c c) as [_|Hne]; [exact IH|now elim Hne].
Qed.

Lemma first_prefix_split (table : CapabilityTable) (modelName prefix : string)
  (caps : ModelInfo) :
  first_prefix table modelName = Some (prefix, caps) ->
  exists before after,
    table = before ++ (prefix, caps) :: after
    /\ String.prefix prefix modelName = true
    /\ forall k c, In (k, c) before -> String.prefix k modelName = false.
Proof.
  induction table as [|[k c] rest IH]; simpl; [discriminate|].
  unfold JS.startsWith in *.
  destruct (String.prefix k modelName) eqn:Hk.
  - intros [= -> ->]. exists [], rest. split; [reflexivity|]. split; [exact Hk|].
    intros ? ? [].
  - intros Hrest. destruct (IH Hrest) as (before & after & -> & Hp & Hnone).
    exists ((k, c) :: before), after. split; [reflexivity|]. split; [exact Hp|].
    intros k' c' [[= <- <-]|Hin]; [exact Hk|now apply (Hnone k' c')].
Qed.

Lemma spread_merged (base caps : ModelInfo) : merged_over base caps (spread base caps).
Proof.
  unfold merged_over, spread, over. cbn.
  destruct (maxTokens caps), (contextWindow caps), (supportsImages caps),
    (supportsPromptCache caps), (supportsReasoning caps), (inputPrice caps),
    (outputPrice caps); repeat split.
Qed.

Lemma resolve_cases (table : CapabilityTable) (default_info : ModelInfo)
  (modelName : string) :
  NoDup (map fst table) ->
  resolution_cases table default_info modelName (resolve table default_info modelName).
Proof.
  intros Hdistinct. unfold resolution_cases, resolve. split; [|split].
  - intros caps Hin. rewrite (own_of_distinct_keys _ _ _ Hdistinct Hin).
    apply spread_merged.
  - intros Hnokey [prefix [caps [Hin Hprefix]]].
    rewrite own_none by (intros key caps' Hin' ->; exact (Hnokey caps' Hin')).
    destruct (first_prefix table modelName) as [[k c]|] eqn:Hfirst.
    + destruct (first_prefix_split _ _ _ _ Hfirst) as (before & after & Htable & Hp & Hnone).
      exists before, k, c, after. split; [exact Htable|]. split; [exact Hp|].
      split; [exact Hnone|]. apply spread_merged.
    + pose proof (first_prefix_none _ _ Hfirst prefix caps Hin) as Hno.
      unfold JS.startsWith in Hno. congruence.
  - intros Hnone.
    rewrite own_none.
    2:{ intros key caps Hin ->. pose proof (Hnone _ _ Hin) as Hno.
        rewrite prefix_refl in Hno. discriminate Hno. }
    destruct (first_prefix table modelName) as [[k c]|] eqn:Hfirst; [|reflexivity].
    destruct (first_prefix_some _ _ _ _ Hfirst) as [Hin Hp].
    unfold JS.startsWith in Hp. rewrite (Hnone _ _ Hin) in Hp. discriminate Hp.
Qed.

(** C8: capability resolution is total and goes by cases: a name that is
    a key of the table gives the record of that key merged, member by
    member, over the default record; a name that is no key but has table
    keys as prefixes gives the record of such a key (the first in table
    order) merged over the default record; and a name that no key is a
    prefix of gives the default record; this holds for the handler's copy
    and for the settings view's copy. *)
Theorem getModelCapabilities_total (modelName : string) :
  resolution_cases Provider.FOUNDRY_MODEL_CAPABILITIES Provider.DEFAULT_MODEL_INFO modelName
    (Provider.getModelCapabilities modelName)
  /\ resolution_cases Webview.MODEL_CAPABILITIES Webview.DEFAULT_MODEL_INFO modelName
       (Webview.getModelCapabilities modelName).
Proof.
  split; apply resolve_cases; apply distinctb_NoDup; vm_compute; reflexivity.
Qed.

Lemma getModelCapabilities_total_witness :
  (maxTokens (Provider.getModelCapabilities "o1-mini") = Some 65536%Z
   /\ supportsReasoning (Provider.getModelCapabilities "o1-mini") = Some true
   /\ supportsPromptCache (Provider.getModelCapabilities "o1-mini") = Some false)
  /\ Webview.getModelCapabilities "my-own-model" = Webview.DEFAULT_MODEL_INFO.
Proof.
  destruct (getModelCapabilities_total "o1-mini") as [[Hkey _] _].
  destruct (getModelCapabilities_total "my-own-model") as [_ [_ [_ Hunknown]]].
  split.
  - destruct (Hkey (priced_reasoning 65536 128000 false false 3.0 12.0))
      as (Hmax & _ & _ & Hcache & Hreasoning & _).
    + simpl. do 9 right. left. reflexivity.
    + repeat split; assumption.
  - apply Hunknown. simpl. intros prefix caps Hin.
    repeat (destruct Hin as [[= <- <-]|Hin]; [reflexivity|]). destruct Hin.
Defined.

Lemma longest_prefix_some (table : CapabilityTable) (modelName key : string)
  (caps : ModelInfo) :
  longest_prefix table modelName = Some (key, caps) ->
  In (key, caps) table /\ JS.startsWith modelName key = true.
Proof.
  revert key caps.
  induction table as [|[k c] rest IH]; simpl; intros key caps; [discriminate|].
  destruct (JS.startsWith modelName k) eqn:Hk.
  - destruct (longest_prefix rest modelName) as [[k' c']|] eqn:Hlater.
    + destruct (String.length k <? String.length k')%nat.
      * intros [= <- <-]. destruct (IH k' c' eq_refl) as [Hin Hp]. split; [now right|assumption].
      * intros [= <- <-]. split; [now left|assumption].
    + intros [= <- <-]. split; [now left|assumption].
  - intros Hlater. destruct (IH key caps Hlater) as [Hin Hp]. split; [now right|assumption].
Qed.

Lemma longest_prefix_skip (before after : CapabilityTable) (modelName : string) :
  (forall k c, In (k, c) before -> JS.startsWith modelName k = false) ->
  longest_prefix (before ++ after) modelName = longest_prefix after modelName.
Proof.
  induction before as [|[key c] rest IH]; simpl; intros Hnone; [reflexivity|].
  rewrite (Hnone key c) by now left.
  apply IH. intros k c' Hin. apply (Hnone k c'). now right.
Qed.

(** C7 (amended): a name that is not an exact key resolves to the record
    of the first table key, in table order, that is a prefix of it; that
    key is the longest matching prefix when no longer matching key follows
    it in the table. *)
Theorem first_matching_prefix_selected (table before after : CapabilityTable)
  (default_info : ModelInfo) (modelName key : string) (caps : ModelInfo) :
  own table modelName = None ->
  table = before ++ (key, caps) :: after ->
  JS.startsWith modelName key = true ->
  (forall k c, In (k, c) before -> JS.startsWith modelName k = false) ->
  resolve table default_info modelName = spread default_info caps
  /\ ((forall k c, In (k, c) after -> JS.startsWith modelName k = true ->
         (String.length k <= String.length key)%nat) ->
      longest_prefix table modelName = Some (key, caps)).
Proof.
  intros Hown -> Hkey Hbefore. split.
  - unfold resolve. rewrite Hown, (first_prefix_skip _ _ _ Hbefore). simpl.
    now rewrite Hkey.
  - intros Hafter. rewrite (longest_prefix_skip _ _ _ Hbefore). simpl.
    rewrite Hkey.
    destruct (longest_prefix after modelName) as [[k' c']|] eqn:Hlater; [|reflexivity].
    destruct (longest_prefix_some _ _ _ _ Hlater) as [Hin Hp].
    specialize (Hafter k' c' Hin Hp).
    destruct (Nat.ltb_spec (String.length key) (String.length k')); [lia|reflexivity].
Qed.

Lemma first_matching_prefix_selected_witness :
  Provider.getModelCapabilities "gpt-4o-2024-08-06"
  = spread Provider.DEFAULT_MODEL_INFO (priced 16384 128000 true false 2.5 10.0)
  /\ longest_prefix Provider.FOUNDRY_MODEL_CAPABILITIES "gpt-4o-2024-08-06"
     = Some ("gpt-4o", priced 16384 128000 true false 2.5 10.0).
Proof.
  destruct (first_matching_prefix_selected
              Provider.FOUNDRY_MODEL_CAPABILITIES
              (firstn 4 Provider.FOUNDRY_MODEL_CAPABILITIES)
              (skipn 5 Provider.FOUNDRY_MODEL_CAPABILITIES)
              Provider.DEFAULT_MODEL_INFO "gpt-4o-2024-08-06" "gpt-4o"
              (priced 16384 128000 true false 2.5 10.0)) as [Hfirst Hlongest].
  - reflexivity.
  - reflexivity.
  - reflexivity.
  - simpl. intros k c Hin.
    repeat (destruct Hin as [[= <- <-]|Hin]; [reflexivity|]). destruct Hin.
  - split; [exact Hfirst|]. apply Hlongest.
    simpl. intros k c Hin.
    repeat (destruct Hin as [[= <- <-]|Hin]; [vm_compute; intros; try discriminate; lia|]).
    destruct Hin.
Defined.

(** C7 (as stated) fails: "o1-mini-2024-09-12" is no key of the handler's
    table, the keys "o1" and "o1-mini" are prefixes of it, the longest is
    "o1-mini", and the record returned is not the one of "o1-mini". *)
Lemma longest_prefix_not_selected :
  ~ longest_prefix_selected Provider.FOUNDRY_MODEL_CAPABILITIES
      Provider.DEFAULT_MODEL_INFO "o1-mini-2024-09-12".
Proof.
  intros Hclaim.
  specialize (Hclaim eq_refl).
  assert (Hmany : (1 < List.length (matching_keys Provider.FOUNDRY_MODEL_CAPABILITIES
                                      "o1-mini-2024-09-12"))%nat) by (vm_compute; lia).
  specialize (Hclaim Hmany "o1-mini" (priced_reasoning 65536 128000 false false 3.0 12.0)
                eq_refl).
  vm_compute in Hclaim. discriminate Hclaim.
Qed.

(** ** Error classifier *)

Lemma prefix_app (p s : string) : String.prefix p (p ++ s) = true.
Proof.
  induction p as [|c p IH]; simpl.
  - now destruct s.
  - destruct (Ascii.ascii_dec c c) as [_|Hne]; [exact IH|now elim Hne].
Qed.

Lemma includes_self_app (needle s : string) : JS.includes (needle ++ s) needle = true.
Proof.
  pose proof (prefix_app needle s) as Hp.
  destruct (needle ++ s)%string; cbn [JS.includes]; rewrite Hp; reflexivity.
Qed.

Lemma includes_refl (s : string) : JS.includes s s = true.
Proof.
  assert (Hp : String.prefix s s = true).
  { induction s as [|c s IH]; simpl; [reflexivity|].
    destruct (Ascii.ascii_dec c c) as [_|Hne]; [exact IH|now elim Hne]. }
  destruct s; cbn [JS.includes]; rewrite Hp; reflexivity.
Qed.

Lemma includes_after (before s needle : string) :
  JS.includes s needle = true -> JS.includes (before ++ s) needle = true.
Proof.
  intros Hs. induction before as [|c before IH]; simpl; [exact Hs|].
  rewrite IH. apply orb_true_r.
Qed.

(** C6 (amended): the message is chosen by an ordered rule table, each
    rule firing on the status code or on a fragment of the message: 401
    gives Auth, 403 Authorization, 404 with a deployment hint NotFound with
    the deployment text, 404 NotFound, 429 RateLimited, and the fragments
    ENOTFOUND, ECONNREFUSED or network give Network; when no rule fires the
    raw message is kept behind a fixed prefix.  The Auth text depends on
    the auth mode and the deployment text names the configured
    deployment. *)
Theorem getDetailedErrorMessage_rule_table (o : MicrosoftFoundryHandlerOptions)
  (e : RawError) :
  getDetailedErrorMessage o e = remediation o e (classify rules e)
  /\ (classify rules e = None ->
      getDetailedErrorMessage o e = ("Microsoft Foundry error: " ++ message e)%string
      /\ JS.includes (getDetailedErrorMessage o e) (message e) = true)
  /\ msg_relogin <> msg_invalid_key
  /\ (forall d, microsoftFoundryDeploymentId o = Some d ->
      JS.includes (msg_deployment_not_found (microsoftFoundryDeploymentId o)) d = true).
Proof.
  assert (Hmain : getDetailedErrorMessage o e = remediation o e (classify rules e)).
  { unfold getDetailedErrorMessage, classify, rules, rule_table, fires, mentions,
      deployment_hints, status_of.
    cbn [find existsb on_status on_message with_hint].
    repeat (match goal with
            | |- context [is_code ?s ?c] => destruct (is_code s c)
            | |- context [JS.includes ?s ?f] => destruct (JS.includes s f)
            end;
            cbn [orb andb find remediation kind deployment_specific];
            try reflexivity). }
  split; [exact Hmain|]. split; [|split].
  - intros Hnone. rewrite Hmain, Hnone. cbn [remediation]. split; [reflexivity|].
    unfold msg_default. apply includes_after.
    apply includes_refl.
  - discriminate.
  - intros d ->. unfold msg_deployment_not_found.
    apply includes_after. apply includes_self_app.
Qed.
Lemma getDetailedErrorMessage_rule_table_witness :
  (getDetailedErrorMessage (key_options (Some "gpt-4o") None) (plain_error "socket hang up")
   = ("Microsoft Foundry error: " ++ "socket hang up")%string
   /\ JS.includes
        (getDetailedErrorMessage (key_options (Some "gpt-4o") None)
           (plain_error "socket hang up"))
        "socket hang up" = true)
  /\ JS.includes (msg_deployment_not_found (Some "gpt-4o")) "gpt-4o" = true.
Proof.
  destruct (getDetailedErrorMessage_rule_table (key_options (Some "gpt-4o") None)
              (plain_error "socket hang up")) as (_ & Hunknown & _ & Hdeployment).
  split.
  - apply Hunknown. reflexivity.
  - apply (Hdeployment "gpt-4o"). reflexivity.
Defined.

(** C6 (as stated) fails: an error without status code whose message is
    "network timeout" carries no DNS or connection-refused fragment, so the
    stated table leaves it Unknown with the raw message kept; the handler
    answers with the Network text, which does not contain the raw
    message. *)
Lemma network_fragment_not_unknown :
  kind_of (classify stated_rules (plain_error "network timeout")) = Unknown
  /\ getDetailedErrorMessage (key_options (Some "gpt-4o") None)
       (plain_error "network timeout") = msg_network
  /\ JS.includes msg_network "network timeout" = false
  /\ ~ classified_as_stated (key_options (Some "gpt-4o") None)
         (plain_error "network timeout").
Proof.
  repeat split; try reflexivity.
  unfold classified_as_stated. vm_compute. discriminate.
Qed.

(** ** Client provisioner *)

Lemma getAudienceScope_throws (o : MicrosoftFoundryHandlerOptions) :
  flag (microsoftFoundryUseIdentity o) = true ->
  (fails (getAudienceScope o) <-> stack_without_scope o).
Proof.
  intros Hid. unfold fails, stack_without_scope, getAudienceScope.
  rewrite Hid.
  destruct (microsoftFoundryCloudEnvironment o) as [[| |]|];
    destruct (JS.truthy (microsoftFoundryCustomScope o));
    destruct (JS.includes _ "azure.us"); destruct (JS.includes _ "azure.com");
    cbn [negb]; split;
    try (intros [m Hm]; discriminate Hm);
    try (intros (_ & Henv & Hscope & Hus & Hcom); discriminate);
    try (intros _; repeat split; reflexivity);
    try (intros _; eexists; reflexivity).
Qed.

Lemma ensureClient_cached `{Externals} (h : MicrosoftFoundryHandler) (c : AzureOpenAI) :
  client h = Some c -> ensureClient h = mkProvisioned (Ok c) h [].
Proof. intros Hc. unfold ensureClient. now rewrite Hc. Qed.

Lemma ensureClient_ok_caches `{Externals} (h : MicrosoftFoundryHandler) (c : AzureOpenAI) :
  outcome (ensureClient h) = Ok c -> client (handler_after (ensureClient h)) = Some c.
Proof.
  unfold ensureClient.
  destruct (client h) as [c0|] eqn:Hc; cbn.
  - intros [= ->]. exact Hc.
  - destruct (negb (JS.truthy (microsoftFoundryEndpoint (options h)))); [discriminate|].
    destruct (negb (JS.truthy (microsoftFoundryApiKey (options h)))
              && negb (flag (microsoftFoundryUseIdentity (options h)))); [discriminate|].
    destruct (flag (microsoftFoundryUseIdentity (options h))).
    + destruct (getAudienceScope (options h)); cbn; [|discriminate].
      now intros [= ->].
    + cbn. now intros [= ->].
Qed.

Lemma ensureClient_calls_cached `{Externals} (n : nat) (h : MicrosoftFoundryHandler)
  (c : AzureOpenAI) :
  client h = Some c -> ensureClient_calls n h = (repeat (Ok c) n, h, []).
Proof.
  intros Hc. induction n as [|n IH]; [reflexivity|].
  cbn [ensureClient_calls]. rewrite (ensureClient_cached h c Hc). cbn.
  now rewrite IH.
Qed.

(** C9 (amended): on an instance without a client, [ensureClient] fails
    exactly when the endpoint is absent, or neither an API key nor identity
    authentication is selected, or identity authentication is selected for
    the stack environment without a custom scope and the endpoint names
    neither known cloud; otherwise the first call builds the client and
    every later call on the instance returns that same client, so that any
    number of calls builds exactly one. *)
Theorem ensureClient_provisions_once `{Externals} (h : MicrosoftFoundryHandler) :
  client h = None ->
  (fails (outcome (ensureClient h))
   <-> endpoint_absent (options h) \/ no_auth_selected (options h)
       \/ stack_without_scope (options h))
  /\ (forall c, outcome (ensureClient h) = Ok c ->
      built (ensureClient h) = [c]
      /\ forall n, ensureClient_calls (S n) h
                   = (repeat (Ok c) (S n), handler_after (ensureClient h), [c])).
Proof.
  intros Hfresh. split.
  - unfold ensureClient, endpoint_absent, no_auth_selected. rewrite Hfresh.
    destruct (JS.truthy (microsoftFoundryEndpoint (options h))) eqn:Hend; cbn.
    2:{ split; [now left|]. intros _. eexists; reflexivity. }
    destruct (JS.truthy (microsoftFoundryApiKey (options h))) eqn:Hkey;
      destruct (flag (microsoftFoundryUseIdentity (options h))) eqn:Hid; cbn.
    + rewrite <- (getAudienceScope_throws _ Hid).
      destruct (getAudienceScope (options h)) as [scope|m]; cbn; split.
      * intros [m Hm]; discriminate Hm.
      * intros [Hf|[[Hf _]|[m Hm]]]; discriminate.
      * intros _. right. right. eexists; reflexivity.
      * intros _. eexists; reflexivity.
    + split; [intros [m Hm]; discriminate Hm|].
      intros [Hf|[[Hf _]|Hs]]; try discriminate Hf.
      destruct Hs as (Hf & _). rewrite Hid in Hf. discriminate Hf.
    + rewrite <- (getAudienceScope_throws _ Hid).
      destruct (getAudienceScope (options h)) as [scope|m]; cbn; split.
      * intros [m Hm]; discriminate Hm.
      * intros [Hf|[[_ Hf]|[m Hm]]]; discriminate.
      * intros _. right. right. eexists; reflexivity.
      * intros _. eexists; reflexivity.
    + split; [|intros _; eexists; reflexivity].
      intros _. right. left. now split.
  - intros c Hok.
    pose proof (ensureClient_ok_caches h c Hok) as Hcached.
    assert (Hbuilt : built (ensureClient h) = [c]).
    { revert Hok. unfold ensureClient. rewrite Hfresh.
      destruct (negb (JS.truthy (microsoftFoundryEndpoint (options h)))); [discriminate|].
      destruct (negb (JS.truthy (microsoftFoundryApiKey (options h)))
                && negb (flag (microsoftFoundryUseIdentity (options h)))); [discriminate|].
      destruct (flag (microsoftFoundryUseIdentity (options h))).
      - destruct (getAudienceScope (options h)); cbn; [|discriminate].
        now intros [= ->].
      - cbn. now intros [= ->]. }
    split; [exact Hbuilt|].
    intros n. cbn [ensureClient_calls].
    rewrite (ensureClient_calls_cached n _ c Hcached), Hok, Hbuilt. reflexivity.
Qed.

Lemma ensureClient_provisions_once_witness :
  ensureClient_calls (H := sample_externals) 3 (new_handler (key_options (Some "gpt-4o") None))
  = (repeat (Ok (mkClient "https://example.com" (apiKey "test-key") "2024-10-21")) 3,
     mkHandler (key_options (Some "gpt-4o") None)
       (Some (mkClient "https://example.com" (apiKey "test-key") "2024-10-21")),
     [mkClient "https://example.com" (apiKey "test-key") "2024-10-21"]).
Proof.
  destruct (ensureClient_provisions_once (H := sample_externals)
              (new_handler (key_options (Some "gpt-4o") None)) eq_refl) as [_ Honce].
  destruct (Honce (mkClient "https://example.com" (apiKey "test-key") "2024-10-21") eq_refl)
    as [_ Hcalls].
  exact (Hcalls 2%nat).
Defined.

(** C9 (as stated) fails: with an endpoint, identity authentication, the
    stack environment and no custom scope, neither stated fault is present
    and yet the first call throws. *)
Lemma stack_without_scope_fails :
  ~ fails_only_on_stated_faults (H := sample_externals) stack_options.
Proof.
  intros [Hfails _].
  destruct Hfails as [Hf|Hf].
  - eexists. vm_compute. reflexivity.
  - vm_compute in Hf. discriminate Hf.
  - destruct Hf as [_ Hf]. vm_compute in Hf. discriminate Hf.
Qed.

(** ** Request shaper *)

Lemma createMessage_streaming `{Externals} `{ToolCallProcessor}
  (create : AzureOpenAI -> ChatCompletionCreateParams -> ProviderResponse)
  (h : MicrosoftFoundryHandler) (systemPrompt : string)
  (history : list ClineStorageMessage) (tools : option (list ChatCompletionTool))
  (c : AzureOpenAI) (chunks : list Chunk) (failure : option RawError) :
  outcome (ensureClient h) = Ok c ->
  JS.truthy (microsoftFoundryDeploymentId (options h)) = true ->
  create c (shape (options h) (text_of (microsoftFoundryDeploymentId (options h)))
              systemPrompt history tools) = Streaming chunks failure ->
  createMessage create h systemPrompt history tools
  = {| events := snd (for_await new_ToolCallProcessor chunks);
       requests := [shape (options h) (text_of (microsoftFoundryDeploymentId (options h)))
                      systemPrompt history tools];
       thrown := option_map (getDetailedErrorMessage (options h)) failure;
       processor_at_end := Some (fst (for_await new_ToolCallProcessor chunks));
       handler_at_end := handler_after (ensureClient h) |}.
Proof.
  intros Hok Hdep Hstream. unfold createMessage.
  rewrite Hok, Hdep. cbn [negb]. rewrite Hstream.
  now destruct (for_await new_ToolCallProcessor chunks).
Qed.

Lemma createMessage_request `{Externals} `{ToolCallProcessor}
  (create : AzureOpenAI -> ChatCompletionCreateParams -> ProviderResponse)
  (h : MicrosoftFoundryHandler) (systemPrompt : string)
  (history : list ClineStorageMessage) (tools : option (list ChatCompletionTool))
  (r : ChatCompletionCreateParams) :
  In r (requests (createMessage create h systemPrompt history tools)) ->
  microsoftFoundryDeploymentId (options h) = Some (model r)
  /\ r = shape (options h) (model r) systemPrompt history tools.
Proof.
  unfold createMessage.
  destruct (outcome (ensureClient h)) as [c|m]; [|intros []].
  destruct (microsoftFoundryDeploymentId (options h)) as [d|] eqn:Hd; cbn; [|intros []].
  destruct (d =? EmptyString); cbn; [intros []|].
  destruct (create c _) as [e|chunks failure].
  - cbn. intros [<-|[]]. now split.
  - destruct (for_await new_ToolCallProcessor chunks). cbn. intros [<-|[]]. now split.
Qed.

Lemma isReasoningModel_class (o : MicrosoftFoundryHandlerOptions) (deploymentId : string) :
  isReasoningModel o deploymentId = true
  <-> reasoning_class (modelInfo_of o deploymentId) deploymentId.
Proof.
  unfold isReasoningModel, reasoning_class, reasoning_families. cbn [existsb].
  destruct (supportsReasoning (modelInfo_of o deploymentId)) as [[|]|];
    destruct (JS.includes _ "o1"); destruct (JS.includes _ "o3");
    destruct (JS.includes _ "o4"); destruct (JS.includes _ "chat"); cbn;
    split; intros Hc; try reflexivity; try discriminate Hc; auto;
    try (destruct Hc as [Hc|[[Hc|[Hc|Hc]] Hchat]]; discriminate).
Qed.

Lemma effort_sent (hint : option string) :
  (if JS.truthy (Some (if JS.truthy hint then text_of hint else "medium"))
   then JS.Present (text_of (Some (if JS.truthy hint then text_of hint else "medium")))
   else JS.Absent)
  = JS.Present (effort_or_medium hint).
Proof.
  destruct hint as [s|]; cbn; [|reflexivity].
  destruct (String.eqb_spec s EmptyString) as [->|Hne]; cbn; [reflexivity|].
  destruct (String.eqb_spec s EmptyString) as [->|_]; [now elim Hne|reflexivity].
Qed.

(** C4 (amended): every request [createMessage] issues carries the
    system prompt under the developer role and a reasoning_effort member
    equal to the caller's hint, or medium without a hint, when the
    capability record declares reasoning support or the lower-cased
    identifier contains o1, o3 or o4 anywhere and does not contain chat;
    otherwise the system prompt is under the system role and there is no
    reasoning_effort member. *)
Theorem createMessage_reasoning_shape `{Externals} `{ToolCallProcessor}
  (create : AzureOpenAI -> ChatCompletionCreateParams -> ProviderResponse)
  (h : MicrosoftFoundryHandler) (systemPrompt : string)
  (history : list ClineStorageMessage) (tools : option (list ChatCompletionTool))
  (r : ChatCompletionCreateParams) :
  In r (requests (createMessage create h systemPrompt history tools)) ->
  (reasoning_class (modelInfo_of (options h) (model r)) (model r) ->
   prompt_role r = Some "developer"
   /\ reasoning_effort r = JS.Present (effort_or_medium (reasoningEffort (options h))))
  /\ (~ reasoning_class (modelInfo_of (options h) (model r)) (model r) ->
      prompt_role r = Some "system" /\ reasoning_effort r = JS.Absent).
Proof.
  intros Hin. destruct (createMessage_request _ _ _ _ _ _ Hin) as [_ Hshape].
  pose proof (isReasoningModel_class (options h) (model r)) as Hclass.
  rewrite Hshape. unfold prompt_role, shape. cbn [messages reasoning_effort model].
  destruct (isReasoningModel (options h) (model r)); split.
  - intros _. split; [reflexivity|apply effort_sent].
  - intros Hnot. elim Hnot. now apply Hclass.
  - intros Hyes. apply Hclass in Hyes. discriminate Hyes.
  - intros _. now split.
Qed.

Lemma createMessage_reasoning_shape_witness :
  prompt_role (shape (H := sample_externals) (key_options (Some "o1") (Some "low"))
                 "o1" "sys" [] None) = Some "developer"
  /\ reasoning_effort (shape (H := sample_externals) (key_options (Some "o1") (Some "low"))
                         "o1" "sys" [] None) = JS.Present "low".
Proof.
  destruct (createMessage_reasoning_shape (H := sample_externals) (H0 := spec_processor)
              (replay (Streaming [] None))
              (new_handler (key_options (Some "o1") (Some "low"))) "sys" [] None
              (shape (H := sample_externals) (key_options (Some "o1") (Some "low"))
                 "o1" "sys" [] None)) as [Hyes _].
  - left. reflexivity.
  - apply Hyes. left. reflexivity.
Defined.

(** C4 (as stated) fails: the deployment "prod-o3-mini" has no capability
    record declaring reasoning support and its identifier does not begin
    with o1, o3 or o4, yet the request issued for it carries the system
    prompt under the developer role and reasoning_effort medium. *)
Lemma infix_family_shaped_as_reasoning :
  requests (createMessage (H := sample_externals) (H0 := spec_processor)
              (replay (Streaming [] None))
              (new_handler (key_options (Some "prod-o3-mini") None)) "sys" [] None)
  = [infix_request]
  /\ prefix_reasoning_class
       (modelInfo_of (key_options (Some "prod-o3-mini") None) (model infix_request))
       (model infix_request) = false
  /\ prompt_role infix_request = Some "developer"
  /\ reasoning_effort infix_request = JS.Present "medium"
  /\ ~ shaped_by_prefix_class (key_options (Some "prod-o3-mini") None) infix_request.
Proof.
  repeat split; try reflexivity.
  unfold shaped_by_prefix_class.
  replace (prefix_reasoning_class _ (model infix_request)) with false by reflexivity.
  intros [Hrole _]. vm_compute in Hrole. discriminate Hrole.
Qed.

(** C5 (amended): every request [createMessage] issues for a model that
    is reasoning-class as the handler decides it (the capability record,
    which is the configured model information or else the record resolved
    for the deployment, declares reasoning support, or the lower-cased
    identifier contains o1, o3 or o4 anywhere and not chat) or whose
    lower-cased identifier contains gpt-5 or gpt5 carries no temperature in
    its body (the member of the argument object is undefined, which
    serialisation leaves out); the request for any other model carries the
    fixed default temperature 0.7. *)
Theorem createMessage_temperature `{Externals} `{ToolCallProcessor}
  (create : AzureOpenAI -> ChatCompletionCreateParams -> ProviderResponse)
  (h : MicrosoftFoundryHandler) (systemPrompt : string)
  (history : list ClineStorageMessage) (tools : option (list ChatCompletionTool))
  (r : ChatCompletionCreateParams) (info : ModelInfo) :
  In r (requests (createMessage create h systemPrompt history tools)) ->
  microsoftFoundryModelInfo (options h) = Some info
  \/ (microsoftFoundryModelInfo (options h) = None
      /\ info = Provider.getModelCapabilities (model r)) ->
  (reasoning_class info (model r) \/ fixed_temperature_family (model r) ->
   temperature r = JS.Undefined /\ JS.on_wire (temperature r) = None)
  /\ (~ (reasoning_class info (model r) \/ fixed_temperature_family (model r)) ->
      temperature r = JS.Present default_temperature
      /\ JS.on_wire (temperature r) = Some default_temperature).
Proof.
  intros Hin Hinfo. destruct (createMessage_request _ _ _ _ _ _ Hin) as [_ Hshape].
  assert (Hrecord : modelInfo_of (options h) (model r) = info).
  { unfold modelInfo_of. destruct Hinfo as [->|[-> ->]]; reflexivity. }
  pose proof (isReasoningModel_class (options h) (model r)) as Hclass.
  rewrite Hrecord in Hclass.
  assert (Hno : noTemperatureSupport (options h) (model r) = true
                <-> reasoning_class info (model r) \/ fixed_temperature_family (model r)).
  { unfold noTemperatureSupport, fixed_temperature_family. rewrite <- Hclass.
    destruct (JS.includes _ "gpt-5"); destruct (JS.includes _ "gpt5");
      destruct (isReasoningModel (options h) (model r)); cbn;
      split; intros Hc; try reflexivity; auto;
      try discriminate Hc; destruct Hc as [Hc|[Hc|Hc]]; discriminate Hc. }
  rewrite Hshape. unfold shape. cbn [temperature model].
  destruct (noTemperatureSupport (options h) (model r)); split.
  - intros _. now split.
  - intros Hnot. elim Hnot. now apply Hno.
  - intros Hyes. apply Hno in Hyes. discriminate Hyes.
  - intros _. now split.
Qed.

Lemma createMessage_temperature_witness :
  temperature (shape (H := sample_externals) (key_options (Some "gpt-4o") (Some "high"))
                 "gpt-4o" "sys" [] None) = JS.Present default_temperature
  /\ JS.on_wire
       (temperature (shape (H := sample_externals)
                       (key_options (Some "gpt-4o") (Some "high")) "gpt-4o" "sys" [] None))
     = Some default_temperature.
Proof.
  destruct (createMessage_temperature (H := sample_externals) (H0 := spec_processor)
              (replay (Streaming [] None))
              (new_handler (key_options (Some "gpt-4o") (Some "high"))) "sys" [] None
              (shape (H := sample_externals) (key_options (Some "gpt-4o") (Some "high"))
                 "gpt-4o" "sys" [] None)
              (Provider.getModelCapabilities "gpt-4o")) as [_ Hother].
  - left. reflexivity.
  - right. split; reflexivity.
  - apply Hother. intros Hclass. vm_compute in Hclass.
    destruct Hclass as [[Hd|[[H1|[H3|H4]] _]]|[Hf|Hf]]; discriminate.
Defined.

(** C5 (as stated) fails: the deployment "prod-o3-mini" is not
    reasoning-class as the specification words it (no capability record
    declares reasoning support and the identifier does not begin with o1,
    o3 or o4) and is not of the gpt-5 family, so the request should carry
    the default temperature; the request issued carries none. *)
Lemma infix_family_without_temperature :
  requests (createMessage (H := sample_externals) (H0 := spec_processor)
              (replay (Streaming [] None))
              (new_handler (key_options (Some "prod-o3-mini") None)) "sys" [] None)
  = [infix_request]
  /\ prefix_reasoning_class
       (modelInfo_of (key_options (Some "prod-o3-mini") None) (model infix_request))
       (model infix_request) = false
  /\ JS.includes (JS.toLowerCase (model infix_request)) "gpt-5" = false
  /\ JS.includes (JS.toLowerCase (model infix_request)) "gpt5" = false
  /\ temperature infix_request = JS.Undefined
  /\ ~ temperature_by_prefix_class (key_options (Some "prod-o3-mini") None) infix_request.
Proof.
  repeat split; try reflexivity.
  unfold temperature_by_prefix_class.
  replace (prefix_reasoning_class _ (model infix_request)) with false by reflexivity.
  replace (JS.includes (JS.toLowerCase (model infix_request)) "gpt-5") with false
    by reflexivity.
  replace (JS.includes (JS.toLowerCase (model infix_request)) "gpt5") with false
    by reflexivity.
  cbn [orb]. intros Hsent. vm_compute in Hsent. discriminate Hsent.
Qed.

(** C10: on a handler whose options carry no deployment identifier and
    whose client can be provisioned, [createMessage] throws the error that
    asks to select a deployment, having yielded no event and issued no
    request to the provider. *)
Theorem createMessage_without_deployment `{Externals} `{ToolCallProcessor}
  (create : AzureOpenAI -> ChatCompletionCreateParams -> ProviderResponse)
  (h : MicrosoftFoundryHandler) (systemPrompt : string)
  (history : list ClineStorageMessage) (tools : option (list ChatCompletionTool))
  (c : AzureOpenAI) :
  JS.truthy (microsoftFoundryDeploymentId (options h)) = false ->
  outcome (ensureClient h) = Ok c ->
  thrown (createMessage create h systemPrompt history tools) = Some msg_no_deployment
  /\ events (createMessage create h systemPrompt history tools) = []
  /\ requests (createMessage create h systemPrompt history tools) = []
  /\ JS.includes msg_no_deployment "Please select a deployment" = true.
Proof.
  intros Hnone Hok. unfold createMessage. rewrite Hok, Hnone. cbn.
  repeat split.
Qed.

Lemma createMessage_without_deployment_witness :
  thrown (createMessage (H := sample_externals) (H0 := spec_processor)
            (replay (Streaming [text_chunk "hello"] None))
            (new_handler (key_options None None)) "sys" [] None)
  = Some msg_no_deployment
  /\ events (createMessage (H := sample_externals) (H0 := spec_processor)
               (replay (Streaming [text_chunk "hello"] None))
               (new_handler (key_options None None)) "sys" [] None) = []
  /\ requests (createMessage (H := sample_externals) (H0 := spec_processor)
                 (replay (Streaming [text_chunk "hello"] None))
                 (new_handler (key_options None None)) "sys" [] None) = []
  /\ JS.includes msg_no_deployment "Please select a deployment" = true.
Proof.
  apply (createMessage_without_deployment (H := sample_externals) (H0 := spec_processor)
           (replay (Streaming [text_chunk "hello"] None))
           (new_handler (key_options None None)) "sys" [] None
           (mkClient "https://example.com" (apiKey "test-key") "2024-10-21")).
  - reflexivity.
  - reflexivity.
Defined.

(** ** Streaming loop *)

(** The members of a chunk that decide which events its turn of the loop
    yields. *)
Ltac by_chunk_shape d chunk :=
  destruct (JS.truthy (content d)); destruct (JS.truthy (reasoning_content d));
  destruct (usage chunk).

Lemma for_await_app `{ToolCallProcessor} (p : Processor) (first second : list Chunk) :
  for_await p (first ++ second)
  = (fst (for_await (fst (for_await p first)) second),
     snd (for_await p first) ++ snd (for_await (fst (for_await p first)) second)).
Proof.
  revert p. induction first as [|chunk first IH]; intros p.
  - cbn. now destruct (for_await p second).
  - cbn [app for_await].
    destruct (on_chunk p chunk) as [p1 out1].
    rewrite IH.
    destruct (for_await p1 first) as [p2 out2]. cbn.
    now rewrite app_assoc.
Qed.




Lemma usage_of_on_chunk `{ToolCallProcessor} (p : Processor) (chunk : Chunk) :
  filter is_usage (snd (on_chunk p chunk))
  = match usage chunk with
    | Some u => [usage_event u]
    | None => []
    end.
Proof.
  unfold on_chunk.
  assert (Hcalls : forall out : list ToolCallEvent, filter is_usage (map ToolCall out) = []).
  { induction out as [|e out IH]; [reflexivity|exact IH]. }
  destruct (delta_of chunk) as [d|].
  - destruct (tool_calls d) as [fragments|].
    + destruct (processToolCallDeltas p fragments) as [p' out]. cbn [snd].
      rewrite !filter_app, Hcalls.
      by_chunk_shape d chunk; reflexivity.
    + cbn [snd]. rewrite !filter_app.
      by_chunk_shape d chunk; reflexivity.
  - cbn [snd]. destruct (usage chunk); reflexivity.
Qed.

Lemma usage_of_for_await `{ToolCallProcessor} (p : Processor) (chunks : list Chunk) :
  filter is_usage (snd (for_await p chunks)) = map usage_event (usage_blocks chunks).
Proof.
  revert p. induction chunks as [|chunk chunks IH]; intros p; [reflexivity|].
  cbn [for_await usage_blocks].
  pose proof (usage_of_on_chunk p chunk) as Hone.
  destruct (on_chunk p chunk) as [p1 out1].
  specialize (IH p1). destruct (for_await p1 chunks) as [p2 out2].
  cbn [snd] in *. rewrite filter_app, Hone, IH.
  now destruct (usage chunk).
Qed.

(** C3 (amended): when the provider answers with a stream,
    [createMessage] yields one usage event for each chunk that carries a
    usage block, in arrival order, each built from that chunk's own block;
    hence at most one usage event when at most one chunk carries a usage
    block. *)
Theorem createMessage_usage_per_chunk `{Externals} `{ToolCallProcessor}
  (create : AzureOpenAI -> ChatCompletionCreateParams -> ProviderResponse)
  (h : MicrosoftFoundryHandler) (systemPrompt : string)
  (history : list ClineStorageMessage) (tools : option (list ChatCompletionTool))
  (c : AzureOpenAI) (chunks : list Chunk) (failure : option RawError) :
  outcome (ensureClient h) = Ok c ->
  JS.truthy (microsoftFoundryDeploymentId (options h)) = true ->
  create c (shape (options h) (text_of (microsoftFoundryDeploymentId (options h)))
              systemPrompt history tools) = Streaming chunks failure ->
  filter is_usage (events (createMessage create h systemPrompt history tools))
  = map usage_event (usage_blocks chunks)
  /\ ((List.length (usage_blocks chunks) <= 1)%nat ->
      usage_at_most_once (createMessage create h systemPrompt history tools)).
Proof.
  intros Hok Hdep Hstream.
  assert (Hall : filter is_usage (events (createMessage create h systemPrompt history tools))
                 = map usage_event (usage_blocks chunks)).
  { rewrite (createMessage_streaming _ _ _ _ _ c chunks failure Hok Hdep Hstream).
    cbn [events]. apply usage_of_for_await. }
  split; [exact Hall|].
  intros Hone. unfold usage_at_most_once. now rewrite Hall, length_map.
Qed.

Lemma createMessage_usage_per_chunk_witness :
  filter is_usage
    (events (createMessage (H := sample_externals) (H0 := spec_processor)
               (replay (Streaming [text_chunk "Hi"; usage_chunk 12 2] None))
               (new_handler (key_options (Some "gpt-4o") None)) "sys" [] None))
  = [Usage 12 2 0 0]
  /\ usage_at_most_once
       (createMessage (H := sample_externals) (H0 := spec_processor)
          (replay (Streaming [text_chunk "Hi"; usage_chunk 12 2] None))
          (new_handler (key_options (Some "gpt-4o") None)) "sys" [] None).
Proof.
  destruct (createMessage_usage_per_chunk (H := sample_externals) (H0 := spec_processor)
              (replay (Streaming [text_chunk "Hi"; usage_chunk 12 2] None))
              (new_handler (key_options (Some "gpt-4o") None)) "sys" [] None
              (mkClient "https://example.com" (apiKey "test-key") "2024-10-21")
              [text_chunk "Hi"; usage_chunk 12 2] None eq_refl eq_refl eq_refl)
    as [Hall Hone].
  split; [exact Hall|]. apply Hone. simpl. lia.
Defined.

(** C3 (as stated) fails: on a stream in which two chunks carry a usage
    block (a running total, then the final one), two usage events are
    yielded. *)
Lemma usage_yielded_twice :
  filter is_usage
    (events (createMessage (H := sample_externals) (H0 := spec_processor)
               (replay (Streaming [usage_chunk 10 0; usage_chunk 10 5] None))
               (new_handler (key_options (Some "gpt-4o") None)) "sys" [] None))
  = [Usage 10 0 0 0; Usage 10 5 0 0]
  /\ ~ usage_at_most_once
         (createMessage (H := sample_externals) (H0 := spec_processor)
            (replay (Streaming [usage_chunk 10 0; usage_chunk 10 5] None))
            (new_handler (key_options (Some "gpt-4o") None)) "sys" [] None).
Proof.
  split; [reflexivity|].
  unfold usage_at_most_once. vm_compute. intros Hle.
  apply (Nat.nle_succ_diag_l 1). exact Hle.
Qed.

(** ** Tool-call reassembly inside the loop *)















(** * Further properties *)

(** ** Capability resolver *)

(** X1: Every key of a capability table resolves to its own record merged
    over the default record, also when a shorter key that is a prefix of it
    stands earlier in the table; this holds for both copies. *)
Theorem table_key_resolves_to_own_record (key : string) (caps : ModelInfo) :
  (In (key, caps) Provider.FOUNDRY_MODEL_CAPABILITIES ->
   Provider.getModelCapabilities key = spread Provider.DEFAULT_MODEL_INFO caps)
  /\ (In (key, caps) Webview.MODEL_CAPABILITIES ->
      Webview.getModelCapabilities key = spread Webview.DEFAULT_MODEL_INFO caps).
Proof.
  split; intros Hin.
  - unfold Provider.getModelCapabilities, resolve.
    rewrite (own_of_distinct_keys _ key caps); [reflexivity| |exact Hin].
    apply distinctb_NoDup. vm_compute. reflexivity.
  - unfold Webview.getModelCapabilities, resolve.
    rewrite (own_of_distinct_keys _ key caps); [reflexivity| |exact Hin].
    apply distinctb_NoDup. vm_compute. reflexivity.
Qed.

Lemma table_key_resolves_to_own_record_witness :
  Provider.getModelCapabilities "o1-mini"
  = spread Provider.DEFAULT_MODEL_INFO (priced_reasoning 65536 128000 false false 3.0 12.0)
  /\ Webview.getModelCapabilities "o1-mini"
     = spread Webview.DEFAULT_MODEL_INFO (plain_reasoning 65536 128000 false false).
Proof.
  split.
  - apply (proj1 (table_key_resolves_to_own_record "o1-mini"
                    (priced_reasoning 65536 128000 false false 3.0 12.0))).
    simpl. do 9 right. left. reflexivity.
  - apply (proj2 (table_key_resolves_to_own_record "o1-mini"
                    (plain_reasoning 65536 128000 false false))).
    simpl. do 13 right. left. reflexivity.
Defined.

Lemma sound_limitsb_spec (m : ModelInfo) : sound_limitsb m = true -> sound_limits m.
Proof.
  unfold sound_limitsb, sound_limits.
  destruct (maxTokens m) as [maxT|]; [|discriminate].
  destruct (contextWindow m) as [window|]; [|discriminate].
  destruct (supportsImages m) as [images|]; [|discriminate].
  destruct (supportsPromptCache m) as [cache|]; [|discriminate].
  intros Hb. apply andb_true_iff in Hb as [Hpos Hle].
  exists maxT, window, images, cache. repeat split; try reflexivity; lia.
Qed.

Lemma resolve_sound_limits (table : CapabilityTable) (default_info : ModelInfo)
  (modelName : string) :
  sound_limitsb default_info = true ->
  forallb (fun entry => sound_limitsb (spread default_info (snd entry))) table = true ->
  sound_limits (resolve table default_info modelName).
Proof.
  intros Hdefault Htable.
  assert (Hentry : forall key caps, In (key, caps) table ->
                                    sound_limits (spread default_info caps)).
  { intros key caps Hin. apply sound_limitsb_spec.
    rewrite forallb_forall in Htable. exact (Htable (key, caps) Hin). }
  destruct (resolve_resolution table default_info modelName)
    as [caps Hown|prefix caps _ Hin _|_ _].
  - apply (Hentry modelName caps).
    clear Hentry Htable. induction table as [|[k c] rest IH]; simpl in *; [discriminate|].
    destruct (String.eqb_spec k modelName) as [->|_].
    + injection Hown as ->. now left.
    + right. now apply IH.
  - exact (Hentry prefix caps Hin).
  - now apply sound_limitsb_spec.
Qed.

(** X2: Whatever the model name, the record returned by either copy of
    [getModelCapabilities] defines the output limit, the context window
    and the image and prompt-cache flags, with a positive output limit that
    does not exceed the context window; the handler's copy also defines
    both prices. *)
Theorem getModelCapabilities_sound_limits (modelName : string) :
  sound_limits (Provider.getModelCapabilities modelName)
  /\ inputPrice (Provider.getModelCapabilities modelName) <> None
  /\ outputPrice (Provider.getModelCapabilities modelName) <> None
  /\ sound_limits (Webview.getModelCapabilities modelName).
Proof.
  split; [apply resolve_sound_limits; vm_compute; reflexivity|].
  split; [|split; [|apply resolve_sound_limits; vm_compute; reflexivity]].
  - unfold Provider.getModelCapabilities, resolve.
    destruct (own _ modelName) as [caps|].
    + cbn. now destruct (inputPrice caps).
    + destruct (first_prefix _ modelName) as [[k caps]|]; cbn.
      * now destruct (inputPrice caps).
      * discriminate.
  - unfold Provider.getModelCapabilities, resolve.
    destruct (own _ modelName) as [caps|].
    + cbn. now destruct (outputPrice caps).
    + destruct (first_prefix _ modelName) as [[k caps]|]; cbn.
      * now destruct (outputPrice caps).
      * discriminate.
Qed.

Lemma prefix_trans (a b c : string) :
  String.prefix a b = true -> String.prefix b c = true -> String.prefix a c = true.
Proof.
  revert b c. induction a as [|x a IH]; intros b c Hab Hbc; [now destruct c|].
  destruct b as [|y b]; [discriminate|].
  destruct c as [|z c]; [discriminate|].
  simpl in *.
  destruct (Ascii.ascii_dec x y) as [->|]; [|discriminate].
  destruct (Ascii.ascii_dec y z) as [->|]; [|discriminate].
  now apply (IH b c).
Qed.

(** X3: A key that stands in the table after a different key which is a prefix
    of it is never the one the prefix loop selects, whatever the model
    name: such a key is reached by exact match only. *)
Theorem shadowed_key_never_selected (table before rest : CapabilityTable)
  (short long modelName : string) (shadow caps : ModelInfo) :
  table = before ++ (short, shadow) :: rest ->
  ~ In long (map fst before) ->
  short <> long ->
  String.prefix short long = true ->
  first_prefix table modelName <> Some (long, caps).
Proof.
  intros -> Hfresh Hne Hprefix Hselected.
  destruct (first_prefix_some _ _ _ _ Hselected) as [_ Hlong].
  assert (Hshort : JS.startsWith modelName short = true)
    by (unfold JS.startsWith in *; now apply (prefix_trans short long modelName)).
  clear Hlong. induction before as [|[k c] before IH]; simpl in *.
  - rewrite Hshort in Hselected. injection Hselected as Hk _. contradiction.
  - destruct (JS.startsWith modelName k).
    + injection Hselected as Hk _. apply Hfresh. now left.
    + apply IH; [|exact Hselected]. intros Hin. apply Hfresh. now right.
Qed.

Lemma shadowed_key_never_selected_witness :
  first_prefix Provider.FOUNDRY_MODEL_CAPABILITIES "o1-mini-2024-09-12"
  <> Some ("o1-mini", priced_reasoning 65536 128000 false false 3.0 12.0).
Proof.
  apply (shadowed_key_never_selected Provider.FOUNDRY_MODEL_CAPABILITIES
           (firstn 8 Provider.FOUNDRY_MODEL_CAPABILITIES)
           (skipn 9 Provider.FOUNDRY_MODEL_CAPABILITIES)
           "o1" "o1-mini" "o1-mini-2024-09-12"
           (priced_reasoning 100000 200000 true false 15.0 60.0)).
  - reflexivity.
  - simpl. intros Hin.
    repeat (destruct Hin as [Hin|Hin]; [discriminate Hin|]). destruct Hin.
  - discriminate.
  - reflexivity.
Defined.

(** X4: The two copies disagree on the gpt-4.1 family: a deployment name that
    extends gpt-4.1 and is not itself a key resolves in the handler to the
    record of gpt-4 (8192 output tokens, window 128000, no images), since
    gpt-4 stands before gpt-4.1 in its table, and in the settings view to
    the record of gpt-4.1 (32768 output tokens, window 1047576, images). *)
Theorem gpt41_family_resolved_differently (suffix : string) :
  suffix <> EmptyString -> suffix <> "-mini" -> suffix <> "-nano" ->
  Provider.getModelCapabilities ("gpt-4.1" ++ suffix)
  = spread Provider.DEFAULT_MODEL_INFO (priced 8192 128000 false false 30.0 60.0)
  /\ Webview.getModelCapabilities ("gpt-4.1" ++ suffix)
     = spread Webview.DEFAULT_MODEL_INFO (plain 32768 1047576 true false).
Proof.
  intros Hbare Hmini Hnano. split.
  - unfold Provider.getModelCapabilities, resolve.
    rewrite own_none.
    2:{ intros key caps Hin. simpl in Hin.
        repeat (destruct Hin as [[= <- <-]|Hin]; [cbn [String.append]; congruence|]).
        destruct Hin. }
    change Provider.FOUNDRY_MODEL_CAPABILITIES
      with (firstn 6 Provider.FOUNDRY_MODEL_CAPABILITIES
            ++ skipn 6 Provider.FOUNDRY_MODEL_CAPABILITIES).
    rewrite first_prefix_skip.
    2:{ intros k c Hin. simpl in Hin.
        repeat (destruct Hin as [[= <- <-]|Hin]; [reflexivity|]). destruct Hin. }
    reflexivity.
  - destruct suffix as [|head suffix]; [now elim Hbare|].
    unfold Webview.getModelCapabilities, resolve.
    rewrite own_none.
    2:{ intros key caps Hin. simpl in Hin.
        repeat (destruct Hin as [[= <- <-]|Hin]; [cbn [String.append]; congruence|]).
        destruct Hin. }
    change Webview.MODEL_CAPABILITIES
      with (firstn 6 Webview.MODEL_CAPABILITIES ++ skipn 6 Webview.MODEL_CAPABILITIES).
    rewrite first_prefix_skip.
    2:{ intros k c Hin. simpl in Hin.
        repeat (destruct Hin as [[= <- <-]|Hin]; [reflexivity|]). destruct Hin. }
    reflexivity.
Qed.

Lemma gpt41_family_resolved_differently_witness :
  contextWindow (Provider.getModelCapabilities "gpt-4.1-2025-04-14") = Some 128000%Z
  /\ contextWindow (Webview.getModelCapabilities "gpt-4.1-2025-04-14") = Some 1047576%Z.
Proof.
  destruct (gpt41_family_resolved_differently "-2025-04-14") as [Hhandler Hview];
    try discriminate.
  change ("gpt-4.1" ++ "-2025-04-14")%string with "gpt-4.1-2025-04-14" in *.
  rewrite Hhandler, Hview. split; reflexivity.
Defined.

(** ** Audience scope and client *)

(** X5: The audience scope follows the endpoint before it follows the
    selected cloud environment: unless a custom scope is configured for the
    stack environment (which then is returned verbatim, whatever the
    endpoint), an endpoint that contains azure.us in any letter case gets
    the government scope, and otherwise one that contains azure.com gets
    the commercial scope, whichever environment is selected. *)
Theorem getAudienceScope_endpoint_before_environment (o : MicrosoftFoundryHandlerOptions) :
  (microsoftFoundryCloudEnvironment o = Some stack ->
   JS.truthy (microsoftFoundryCustomScope o) = true ->
   getAudienceScope o = Ok (text_of (microsoftFoundryCustomScope o)))
  /\ ((microsoftFoundryCloudEnvironment o = Some stack ->
       JS.truthy (microsoftFoundryCustomScope o) = false) ->
      (JS.includes (JS.toLowerCase (text_of (microsoftFoundryEndpoint o))) "azure.us" = true ->
       getAudienceScope o = Ok scope_government)
      /\ (JS.includes (JS.toLowerCase (text_of (microsoftFoundryEndpoint o))) "azure.us" = false ->
          JS.includes (JS.toLowerCase (text_of (microsoftFoundryEndpoint o))) "azure.com" = true ->
          getAudienceScope o = Ok scope_commercial)).
Proof.
  unfold getAudienceScope. split.
  - intros -> ->. reflexivity.
  - intros Hstack.
    destruct (microsoftFoundryCloudEnvironment o) as [[| |]|];
      try (split; [intros ->; reflexivity|intros -> ->; reflexivity]).
    rewrite (Hstack eq_refl).
    split; [intros ->; reflexivity|intros -> ->; reflexivity].
Qed.

Lemma getAudienceScope_endpoint_before_environment_witness :
  getAudienceScope
    (mkOptions (Some "https://contoso.openai.AZURE.US") None (Some "gpt-4o")
       (Some commercial) (Some true) None None None None)
  = Ok scope_government.
Proof.
  destruct (getAudienceScope_endpoint_before_environment
              (mkOptions (Some "https://contoso.openai.AZURE.US") None (Some "gpt-4o")
                 (Some commercial) (Some true) None None None None)) as [_ Hdetect].
  destruct Hdetect as [Hgov _]; [discriminate|].
  apply Hgov. reflexivity.
Defined.

Lemma ensureClient_failure_keeps `{Externals} (h : MicrosoftFoundryHandler) (m : string) :
  outcome (ensureClient h) = Throw m ->
  handler_after (ensureClient h) = h /\ built (ensureClient h) = [].
Proof.
  unfold ensureClient.
  destruct (client h) as [c|]; [discriminate|].
  destruct (negb (JS.truthy (microsoftFoundryEndpoint (options h)))); [now split|].
  destruct (negb (JS.truthy (microsoftFoundryApiKey (options h)))
            && negb (flag (microsoftFoundryUseIdentity (options h)))); [now split|].
  destruct (flag (microsoftFoundryUseIdentity (options h))); [|discriminate].
  destruct (getAudienceScope (options h)); [discriminate|now split].
Qed.

(** X6: A call of [ensureClient] that throws builds no client and leaves the
    instance as it was, so every further call on the instance throws the
    same error: a failure is never cached and never half-provisions. *)
Theorem ensureClient_failure_repeats `{Externals} (h : MicrosoftFoundryHandler)
  (m : string) (n : nat) :
  outcome (ensureClient h) = Throw m ->
  ensureClient_calls n h = (repeat (Throw m) n, h, []).
Proof.
  intros Hthrow. destruct (ensureClient_failure_keeps h m Hthrow) as [Hsame Hnone].
  induction n as [|n IH]; [reflexivity|].
  cbn [ensureClient_calls]. rewrite Hsame, IH, Hthrow, Hnone. reflexivity.
Qed.

Lemma ensureClient_failure_repeats_witness :
  ensureClient_calls (H := sample_externals) 3 (new_handler stack_options)
  = (repeat (Throw ("Microsoft Foundry error: " ++ msg_stack_scope)%string) 3,
     new_handler stack_options, []).
Proof.
  apply (ensureClient_failure_repeats (H := sample_externals) (new_handler stack_options)).
  reflexivity.
Defined.

(** X7: The client a fresh instance builds: its endpoint is the configured
    one; with identity authentication selected the credential is a token
    provider for the audience scope even when an API key is configured as
    well, and without it the credential is the configured API key; its API
    version is the configured override, or the default version when the
    override is absent or empty. *)
Theorem ensureClient_client_built `{Externals} (h : MicrosoftFoundryHandler)
  (c : AzureOpenAI) :
  client h = None ->
  outcome (ensureClient h) = Ok c ->
  endpoint c = text_of (microsoftFoundryEndpoint (options h))
  /\ (flag (microsoftFoundryUseIdentity (options h)) = true ->
      exists scope, getAudienceScope (options h) = Ok scope
                    /\ credential c = azureADTokenProvider scope)
  /\ (flag (microsoftFoundryUseIdentity (options h)) = false ->
      JS.truthy (microsoftFoundryApiKey (options h)) = true
      /\ credential c = apiKey (text_of (microsoftFoundryApiKey (options h))))
  /\ (JS.truthy (microsoftFoundryApiVersion (options h)) = true ->
      apiVersion c = text_of (microsoftFoundryApiVersion (options h)))
  /\ (JS.truthy (microsoftFoundryApiVersion (options h)) = false ->
      apiVersion c = azureOpenAiDefaultApiVersion).
Proof.
  intros Hfresh. unfold ensureClient. rewrite Hfresh.
  destruct (negb (JS.truthy (microsoftFoundryEndpoint (options h)))); [discriminate|].
  destruct (JS.truthy (microsoftFoundryApiKey (options h))) eqn:Hkey;
    destruct (flag (microsoftFoundryUseIdentity (options h))) eqn:Hid;
    cbn [negb andb]; try discriminate.
  - destruct (getAudienceScope (options h)) as [scope|]; [|discriminate].
    cbn. intros [= <-]. cbn. unfold getApiVersion.
    repeat split; try discriminate.
    + intros _. now exists scope.
    + intros ->. reflexivity.
    + intros ->. reflexivity.
  - cbn. intros [= <-]. cbn. unfold getApiVersion.
    repeat split; try discriminate.
    + intros ->. reflexivity.
    + intros ->. reflexivity.
  - destruct (getAudienceScope (options h)) as [scope|]; [|discriminate].
    cbn. intros [= <-]. cbn. unfold getApiVersion.
    repeat split; try discriminate.
    + intros _. now exists scope.
    + intros ->. reflexivity.
    + intros ->. reflexivity.
Qed.

Lemma ensureClient_client_built_witness :
  credential (mkClient "https://contoso.openai.azure.com"
                (azureADTokenProvider scope_commercial) "2024-10-21")
  = azureADTokenProvider scope_commercial
  /\ apiVersion (mkClient "https://contoso.openai.azure.com"
                   (azureADTokenProvider scope_commercial) "2024-10-21")
     = "2024-10-21".
Proof.
  destruct (ensureClient_client_built (H := sample_externals)
              (new_handler
                 (mkOptions (Some "https://contoso.openai.azure.com") (Some "unused-key")
                    (Some "gpt-4o") None (Some true) None (Some EmptyString) None None))
              (mkClient "https://contoso.openai.azure.com"
                 (azureADTokenProvider scope_commercial) "2024-10-21")
              eq_refl eq_refl) as (_ & Hidentity & _ & _ & Hversion).
  split.
  - destruct (Hidentity eq_refl) as [scope [Hscope Hcredential]].
    rewrite Hcredential. injection Hscope as <-. reflexivity.
  - exact (Hversion eq_refl).
Defined.

(** X8: The errors of a fresh instance: a missing endpoint is reported first,
    with its own text, also when no authentication is selected; with an
    endpoint and no authentication the authentication text is thrown; and
    the missing custom scope of the stack environment is thrown behind the
    prefix of unclassified errors. *)
Theorem ensureClient_error_texts `{Externals} (h : MicrosoftFoundryHandler) :
  client h = None ->
  (endpoint_absent (options h) ->
   outcome (ensureClient h) = Throw msg_endpoint_required)
  /\ (~ endpoint_absent (options h) -> no_auth_selected (options h) ->
      outcome (ensureClient h) = Throw msg_auth_required)
  /\ (~ endpoint_absent (options h) -> stack_without_scope (options h) ->
      outcome (ensureClient h)
      = Throw ("Microsoft Foundry error: " ++ msg_stack_scope)%string).
Proof.
  intros Hfresh. unfold ensureClient, endpoint_absent, no_auth_selected. rewrite Hfresh.
  destruct (JS.truthy (microsoftFoundryEndpoint (options h))); cbn [negb].
  - split; [discriminate|]. split.
    + intros _ [-> ->]. reflexivity.
    + intros _ Hstack.
      pose proof (proj2 (getAudienceScope_throws (options h) (proj1 Hstack)) Hstack)
        as [m Hm].
      destruct Hstack as (Hid & Henv & Hscope & Hus & Hcom).
      rewrite Hid. rewrite andb_false_r.
      unfold getAudienceScope in *. rewrite Henv, Hscope, Hus, Hcom in *.
      cbn. reflexivity.
  - split; [reflexivity|]. split; intros Hpresent; now elim Hpresent.
Qed.

Lemma ensureClient_error_texts_witness :
  outcome (ensureClient (H := sample_externals)
             (new_handler (mkOptions None None None None None None None None None)))
  = Throw msg_endpoint_required.
Proof.
  destruct (ensureClient_error_texts (H := sample_externals)
              (new_handler (mkOptions None None None None None None None None None))
              eq_refl) as [Hendpoint _].
  apply Hendpoint. reflexivity.
Defined.

(** ** Error classifier *)

(** X9: The authentication text is returned exactly when the status code
    (the [status] member, or [statusCode] when [status] is absent or zero)
    is 401 or the message contains 401 or Unauthorized; in particular such
    a message overrides the status code of every later rule. *)
Theorem getDetailedErrorMessage_auth_exactly (o : MicrosoftFoundryHandlerOptions)
  (e : RawError) :
  (getDetailedErrorMessage o e = msg_relogin \/ getDetailedErrorMessage o e = msg_invalid_key)
  <-> (JS.or_num (status e) (statusCode e) = Some 401%Z
       \/ JS.includes (message e) "401" = true
       \/ JS.includes (message e) "Unauthorized" = true).
Proof.
  assert (Hcode : is_code (JS.or_num (status e) (statusCode e)) 401 = true
                  <-> JS.or_num (status e) (statusCode e) = Some 401%Z).
  { unfold is_code. destruct (JS.or_num (status e) (statusCode e)) as [n|].
    - rewrite Z.eqb_eq. split; [now intros ->|now intros [= ->]].
    - split; discriminate. }
  unfold getDetailedErrorMessage.
  destruct (is_code (JS.or_num (status e) (statusCode e)) 401) eqn:H401.
  { cbn [orb]. split.
    - intros _. left. now apply Hcode.
    - intros _. destruct (flag (microsoftFoundryUseIdentity o)); [now left|now right]. }
  destruct (JS.includes (message e) "401") eqn:Hm401.
  { cbn [orb]. split.
    - intros _. right. now left.
    - intros _. destruct (flag (microsoftFoundryUseIdentity o)); [now left|now right]. }
  destruct (JS.includes (message e) "Unauthorized") eqn:Hun.
  { cbn [orb]. split.
    - intros _. right. now right.
    - intros _. destruct (flag (microsoftFoundryUseIdentity o)); [now left|now right]. }
  cbn [orb]. split.
  - intros Hauth. exfalso. revert Hauth.
    repeat match goal with
           | |- context [if ?b then _ else _] => destruct b
           end; intros [Hauth|Hauth]; vm_compute in Hauth; discriminate Hauth.
  - intros [Hc|[Hc|Hc]]; [apply Hcode in Hc|..]; discriminate Hc.
Qed.

Lemma getDetailedErrorMessage_auth_exactly_witness :
  getDetailedErrorMessage (key_options (Some "gpt-4o") None)
    (mkRawError "Unauthorized: quota service" None (Some 429%Z)) = msg_relogin
  \/ getDetailedErrorMessage (key_options (Some "gpt-4o") None)
       (mkRawError "Unauthorized: quota service" None (Some 429%Z)) = msg_invalid_key.
Proof.
  apply (proj2 (getDetailedErrorMessage_auth_exactly (key_options (Some "gpt-4o") None)
                  (mkRawError "Unauthorized: quota service" None (Some 429%Z)))).
  right. right. reflexivity.
Defined.

(** ** Model description *)

(** X10: [getModel] describes what [createMessage] uses: every request issued
    names the deployment [getModel] reports and is shaped by the capability
    record [getModel] reports.  Without a configured deployment [getModel]
    still answers, with an empty identifier and, unless model information
    is configured, the default record. *)
Theorem getModel_agrees_with_createMessage `{Externals} `{ToolCallProcessor}
  (create : AzureOpenAI -> ChatCompletionCreateParams -> ProviderResponse)
  (h : MicrosoftFoundryHandler) (systemPrompt : string)
  (history : list ClineStorageMessage) (tools : option (list ChatCompletionTool)) :
  (forall r, In r (requests (createMessage create h systemPrompt history tools)) ->
     model r = ApiHandlerModel.id (getModel h)
     /\ modelInfo_of (options h) (model r) = ApiHandlerModel.info (getModel h))
  /\ (microsoftFoundryDeploymentId (options h) = None ->
      ApiHandlerModel.id (getModel h) = EmptyString
      /\ (microsoftFoundryModelInfo (options h) = None ->
          ApiHandlerModel.info (getModel h) = Provider.DEFAULT_MODEL_INFO)).
Proof.
  split.
  - intros r Hin. destruct (createMessage_request _ _ _ _ _ _ Hin) as [Hid _].
    unfold getModel, modelInfo_of. rewrite Hid. cbn. now split.
  - intros Hnone. unfold getModel. rewrite Hnone. cbn. split; [reflexivity|].
    intros ->. reflexivity.
Qed.

Lemma getModel_agrees_with_createMessage_witness :
  model (shape (H := sample_externals) (key_options (Some "o3-mini") None)
           "o3-mini" "sys" [] None)
  = ApiHandlerModel.id (getModel (new_handler (key_options (Some "o3-mini") None)))
  /\ ApiHandlerModel.info (getModel (new_handler (key_options None None)))
     = Provider.DEFAULT_MODEL_INFO.
Proof.
  destruct (getModel_agrees_with_createMessage (H := sample_externals) (H0 := spec_processor)
              (replay (Streaming [] None))
              (new_handler (key_options (Some "o3-mini") None)) "sys" [] None)
    as [Hrequests _].
  destruct (getModel_agrees_with_createMessage (H := sample_externals) (H0 := spec_processor)
              (replay (Streaming [] None))
              (new_handler (key_options None None)) "sys" [] None)
    as [_ Hnone].
  split.
  - apply (Hrequests (shape (H := sample_externals) (key_options (Some "o3-mini") None)
                        "o3-mini" "sys" [] None)).
    left. reflexivity.
  - apply (Hnone eq_refl). reflexivity.
Defined.

(** ** Streaming loop, further properties *)

Lemma truthy_nonempty (o : option string) :
  JS.truthy o = true -> text_of o <> EmptyString.
Proof.
  destruct o as [s|]; cbn; [|discriminate].
  destruct (String.eqb_spec s EmptyString); [discriminate|now intros _].
Qed.

Lemma falsy_empty (o : option string) :
  JS.truthy o = false -> text_of o = EmptyString.
Proof.
  destruct o as [s|]; cbn; [|reflexivity].
  destruct (String.eqb_spec s EmptyString); [now intros _|discriminate].
Qed.

Lemma on_chunk_well_formed `{ToolCallProcessor} (p : Processor) (chunk : Chunk) :
  Forall well_formed_event (snd (on_chunk p chunk)).
Proof.
  unfold on_chunk.
  assert (Hcalls : forall out : list ToolCallEvent,
             Forall well_formed_event (map ToolCall out)).
  { induction out; constructor; [exact I|assumption]. }
  assert (Husage : Forall well_formed_event
                     match usage chunk with
                     | Some u =>
                         [Usage (num_or_zero (prompt_tokens u))
                            (num_or_zero (completion_tokens u))
                            (num_or_zero (cached_tokens u)) 0%Z]
                     | None => []
                     end).
  { destruct (usage chunk); repeat constructor. }
  destruct (delta_of chunk) as [d|]; [|exact Husage].
  assert (Htext : Forall well_formed_event
                    (if JS.truthy (content d) then [Text (text_of (content d))] else [])).
  { destruct (JS.truthy (content d)) eqn:Ht; repeat constructor.
    now apply truthy_nonempty. }
  assert (Hreasoning : Forall well_formed_event
                         (if JS.truthy (reasoning_content d)
                          then [Reasoning (text_of (reasoning_content d))] else [])).
  { destruct (JS.truthy (reasoning_content d)) eqn:Hr; repeat constructor.
    now apply truthy_nonempty. }
  destruct (tool_calls d) as [fragments|].
  - destruct (processToolCallDeltas p fragments) as [p' out]. cbn [snd].
    repeat (apply Forall_app; split); auto.
  - cbn [snd]. repeat (apply Forall_app; split); auto.
Qed.

Lemma for_await_well_formed `{ToolCallProcessor} (chunks : list Chunk) (p : Processor) :
  Forall well_formed_event (snd (for_await p chunks)).
Proof.
  revert p. induction chunks as [|chunk rest IH]; intros p; [constructor|].
  cbn [for_await].
  pose proof (on_chunk_well_formed p chunk) as Hone.
  destruct (on_chunk p chunk) as [p1 out1].
  specialize (IH p1). destruct (for_await p1 rest) as [p2 out2].
  cbn [snd] in *. apply Forall_app. now split.
Qed.

(** X11: No run yields an empty text delta or an empty reasoning delta, and
    every usage event reports zero cache-write tokens, whatever the
    provider streams and whatever the tool-call processor does. *)
Theorem createMessage_events_well_formed `{Externals} `{ToolCallProcessor}
  (create : AzureOpenAI -> ChatCompletionCreateParams -> ProviderResponse)
  (h : MicrosoftFoundryHandler) (systemPrompt : string)
  (history : list ClineStorageMessage) (tools : option (list ChatCompletionTool)) :
  Forall well_formed_event (events (createMessage create h systemPrompt history tools)).
Proof.
  unfold createMessage.
  destruct (outcome (ensureClient h)); [|constructor].
  destruct (negb (JS.truthy (microsoftFoundryDeploymentId (options h)))); [constructor|].
  destruct (create _ _) as [e|chunks failure]; [constructor|].
  pose proof (for_await_well_formed chunks new_ToolCallProcessor) as Hall.
  destruct (for_await new_ToolCallProcessor chunks). exact Hall.
Qed.

Lemma yielded_text_app (first second : list StreamEvent) :
  yielded_text (first ++ second) = (yielded_text first ++ yielded_text second)%string.
Proof.
  induction first as [|e first IH]; [reflexivity|].
  destruct e; cbn; rewrite IH; [|reflexivity..].
  clear. induction text as [|c text IH]; cbn; [reflexivity|now rewrite IH].
Qed.

Lemma yielded_reasoning_app (first second : list StreamEvent) :
  yielded_reasoning (first ++ second)
  = (yielded_reasoning first ++ yielded_reasoning second)%string.
Proof.
  induction first as [|e first IH]; [reflexivity|].
  destruct e; cbn; rewrite IH; try reflexivity.
  clear. induction reasoning as [|c reasoning IH]; cbn; [reflexivity|now rewrite IH].
Qed.

Lemma append_empty_r (s : string) : (s ++ EmptyString)%string = s.
Proof. induction s as [|c s IH]; cbn; [reflexivity|now rewrite IH]. Qed.

Lemma on_chunk_text `{ToolCallProcessor} (p : Processor) (chunk : Chunk) :
  yielded_text (snd (on_chunk p chunk))
  = match delta_of chunk with
    | Some d => text_of (content d)
    | None => EmptyString
    end
  /\ yielded_reasoning (snd (on_chunk p chunk))
     = match delta_of chunk with
       | Some d => text_of (reasoning_content d)
       | None => EmptyString
       end.
Proof.
  unfold on_chunk.
  assert (Hcalls : forall out : list ToolCallEvent,
             yielded_text (map ToolCall out) = EmptyString
             /\ yielded_reasoning (map ToolCall out) = EmptyString).
  { induction out; [now split|exact IHout]. }
  assert (Husage : forall us : list StreamEvent,
             us = match usage chunk with
                  | Some u =>
                      [Usage (num_or_zero (prompt_tokens u))
                         (num_or_zero (completion_tokens u))
                         (num_or_zero (cached_tokens u)) 0%Z]
                  | None => []
                  end ->
             yielded_text us = EmptyString /\ yielded_reasoning us = EmptyString).
  { intros us ->. destruct (usage chunk); now split. }
  destruct (delta_of chunk) as [d|]; [|now apply Husage].
  set (us := match usage chunk with Some _ => _ | None => _ end) in *.
  destruct (Husage us eq_refl) as [Hut Hur].
  assert (Hbody : forall calls : list StreamEvent,
             yielded_text calls = EmptyString -> yielded_reasoning calls = EmptyString ->
             yielded_text
               ((if JS.truthy (content d) then [Text (text_of (content d))] else [])
                ++ (if JS.truthy (reasoning_content d)
                    then [Reasoning (text_of (reasoning_content d))] else [])
                ++ calls ++ us) = text_of (content d)
             /\ yielded_reasoning
                  ((if JS.truthy (content d) then [Text (text_of (content d))] else [])
                   ++ (if JS.truthy (reasoning_content d)
                       then [Reasoning (text_of (reasoning_content d))] else [])
                   ++ calls ++ us) = text_of (reasoning_content d)).
  { intros calls Hct Hcr.
    rewrite !yielded_text_app, !yielded_reasoning_app, Hct, Hcr, Hut, Hur.
    destruct (JS.truthy (content d)) eqn:Ht;
      destruct (JS.truthy (reasoning_content d)) eqn:Hr; cbn;
      rewrite ?append_empty_r, ?(falsy_empty _ Ht), ?(falsy_empty _ Hr); now split. }
  destruct (tool_calls d) as [fragments|].
  - destruct (processToolCallDeltas p fragments) as [p' out]. cbn [snd].
    destruct (Hcalls out). now apply Hbody.
  - cbn [snd]. now apply Hbody.
Qed.

Lemma for_await_text `{ToolCallProcessor} (chunks : list Chunk) (p : Processor) :
  yielded_text (snd (for_await p chunks)) = streamed_text chunks
  /\ yielded_reasoning (snd (for_await p chunks)) = streamed_reasoning chunks.
Proof.
  revert p. induction chunks as [|chunk rest IH]; intros p; [now split|].
  cbn [for_await streamed_text streamed_reasoning].
  destruct (on_chunk_text p chunk) as [Ht Hr].
  destruct (on_chunk p chunk) as [p1 out1].
  destruct (IH p1) as [IHt IHr]. destruct (for_await p1 rest) as [p2 out2].
  cbn [snd] in *.
  rewrite yielded_text_app, yielded_reasoning_app, Ht, Hr, IHt, IHr. now split.
Qed.

(** X12: When the provider answers with a stream, the text deltas of the run
    joined in order are exactly the content members the provider streamed,
    joined in order, and likewise the reasoning deltas: the loop loses,
    duplicates and reorders no character. *)
Theorem createMessage_preserves_text `{Externals} `{ToolCallProcessor}
  (create : AzureOpenAI -> ChatCompletionCreateParams -> ProviderResponse)
  (h : MicrosoftFoundryHandler) (systemPrompt : string)
  (history : list ClineStorageMessage) (tools : option (list ChatCompletionTool))
  (c : AzureOpenAI) (chunks : list Chunk) (failure : option RawError) :
  outcome (ensureClient h) = Ok c ->
  JS.truthy (microsoftFoundryDeploymentId (options h)) = true ->
  create c (shape (options h) (text_of (microsoftFoundryDeploymentId (options h)))
              systemPrompt history tools) = Streaming chunks failure ->
  yielded_text (events (createMessage create h systemPrompt history tools))
  = streamed_text chunks
  /\ yielded_reasoning (events (createMessage create h systemPrompt history tools))
     = streamed_reasoning chunks.
Proof.
  intros Hok Hdep Hstream.
  rewrite (createMessage_streaming _ _ _ _ _ c chunks failure Hok Hdep Hstream).
  cbn [events]. apply for_await_text.
Qed.

Lemma createMessage_preserves_text_witness :
  yielded_text
    (events (createMessage (H := sample_externals) (H0 := spec_processor)
               (replay (Streaming [text_chunk "Hel"; bare_chunk; text_chunk "lo";
                                   usage_chunk 12 2] None))
               (new_handler (key_options (Some "gpt-4o") None)) "sys" [] None))
  = "Hello".
Proof.
  destruct (createMessage_preserves_text (H := sample_externals) (H0 := spec_processor)
              (replay (Streaming [text_chunk "Hel"; bare_chunk; text_chunk "lo";
                                  usage_chunk 12 2] None))
              (new_handler (key_options (Some "gpt-4o") None)) "sys" [] None
              (mkClient "https://example.com" (apiKey "test-key") "2024-10-21")
              [text_chunk "Hel"; bare_chunk; text_chunk "lo"; usage_chunk 12 2] None
              eq_refl eq_refl eq_refl) as [Htext _].
  exact Htext.
Defined.

(** X13: What has been yielded is never taken back: the events of a run over
    a stream are an initial segment of the events of the run over any longer
    stream with the same beginning, and they do not depend on whether the
    stream goes on to close or to fail. *)
Theorem createMessage_events_extend `{Externals} `{ToolCallProcessor}
  (h : MicrosoftFoundryHandler) (systemPrompt : string)
  (history : list ClineStorageMessage) (tools : option (list ChatCompletionTool))
  (first more : list Chunk) (failure failure' : option RawError) :
  exists later,
    events (createMessage (replay (Streaming (first ++ more) failure'))
              h systemPrompt history tools)
    = events (createMessage (replay (Streaming first failure))
                h systemPrompt history tools) ++ later.
Proof.
  unfold createMessage, replay.
  destruct (outcome (ensureClient h)); [|now exists []].
  destruct (negb (JS.truthy (microsoftFoundryDeploymentId (options h)))); [now exists []|].
  rewrite for_await_app.
  destruct (for_await new_ToolCallProcessor first) as [p1 out1]. cbn [fst snd events].
  now exists (snd (for_await p1 more)).
Qed.

(** X14: A run issues at most one request; the request names the configured
    deployment as its model, asks for a stream with usage included, starts
    with the system prompt verbatim, followed by the converted history in
    order, and carries the tool parameters of the tools given. *)
Theorem createMessage_request_shape `{Externals} `{ToolCallProcessor}
  (create : AzureOpenAI -> ChatCompletionCreateParams -> ProviderResponse)
  (h : MicrosoftFoundryHandler) (systemPrompt : string)
  (history : list ClineStorageMessage) (tools : option (list ChatCompletionTool)) :
  (List.length (requests (createMessage create h systemPrompt history tools)) <= 1)%nat
  /\ forall r, In r (requests (createMessage create h systemPrompt history tools)) ->
       microsoftFoundryDeploymentId (options h) = Some (model r)
       /\ model r <> EmptyString
       /\ stream r = true /\ include_usage r = true
       /\ (exists role, messages r
                        = Prompt role systemPrompt
                            :: map Converted (convertToOpenAiMessages history))
       /\ tool_params r = getOpenAIToolParams tools.
Proof.
  split.
  - unfold createMessage.
    destruct (outcome (ensureClient h)); [|cbn; lia].
    destruct (negb (JS.truthy (microsoftFoundryDeploymentId (options h)))); [cbn; lia|].
    destruct (create _ _) as [e|chunks failure]; [cbn; lia|].
    destruct (for_await new_ToolCallProcessor chunks). cbn. lia.
  - intros r Hin.
    assert (Htruthy : JS.truthy (microsoftFoundryDeploymentId (options h)) = true).
    { revert Hin. unfold createMessage.
      destruct (outcome (ensureClient h)); [|intros []].
      destruct (JS.truthy (microsoftFoundryDeploymentId (options h))); [reflexivity|].
      intros []. }
    destruct (createMessage_request _ _ _ _ _ _ Hin) as [Hid Hshape].
    split; [exact Hid|]. split.
    { rewrite Hid in Htruthy. exact (truthy_nonempty _ Htruthy). }
    rewrite Hshape. unfold shape. cbn. repeat split. eexists. reflexivity.
Qed.

Lemma createMessage_request_shape_witness :
  stream (shape (H := sample_externals) (key_options (Some "gpt-4o") None)
            "gpt-4o" "sys" ["hi"] None) = true
  /\ include_usage (shape (H := sample_externals) (key_options (Some "gpt-4o") None)
                      "gpt-4o" "sys" ["hi"] None) = true.
Proof.
  destruct (createMessage_request_shape (H := sample_externals) (H0 := spec_processor)
              (replay (Rejected (plain_error "boom")))
              (new_handler (key_options (Some "gpt-4o") None)) "sys" ["hi"] None)
    as [_ Hshape].
  destruct (Hshape (shape (H := sample_externals) (key_options (Some "gpt-4o") None)
                      "gpt-4o" "sys" ["hi"] None))
    as (_ & _ & Hstream & Husage & _); [left; reflexivity|].
  now split.
Defined.

(** X15: A configuration error comes first and untranslated: when the client
    cannot be provisioned, [createMessage] throws the provisioning error as
    it is, also when no deployment is configured, yields nothing, issues no
    request and leaves the instance without a client. *)
Theorem createMessage_configuration_error_first `{Externals} `{ToolCallProcessor}
  (create : AzureOpenAI -> ChatCompletionCreateParams -> ProviderResponse)
  (h : MicrosoftFoundryHandler) (systemPrompt : string)
  (history : list ClineStorageMessage) (tools : option (list ChatCompletionTool))
  (m : string) :
  outcome (ensureClient h) = Throw m ->
  thrown (createMessage create h systemPrompt history tools) = Some m
  /\ events (createMessage create h systemPrompt history tools) = []
  /\ requests (createMessage create h systemPrompt history tools) = []
  /\ handler_at_end (createMessage create h systemPrompt history tools) = h.
Proof.
  intros Hthrow. destruct (ensureClient_failure_keeps h m Hthrow) as [Hsame _].
  unfold createMessage. rewrite Hthrow, Hsame. repeat split.
Qed.

Lemma createMessage_configuration_error_first_witness :
  thrown (createMessage (H := sample_externals) (H0 := spec_processor)
            (replay (Streaming [text_chunk "hello"] None))
            (new_handler (mkOptions None (Some "test-key") None None None None None None None))
            "sys" [] None)
  = Some msg_endpoint_required.
Proof.
  destruct (createMessage_configuration_error_first (H := sample_externals)
              (H0 := spec_processor)
              (replay (Streaming [text_chunk "hello"] None))
              (new_handler (mkOptions None (Some "test-key") None None None None None None None))
              "sys" [] None msg_endpoint_required eq_refl) as [Hthrown _].
  exact Hthrown.
Defined.

(** X16: Provider failures are never surfaced raw: when the provider rejects
    the request, exactly that one request has been issued, nothing is
    yielded and the error thrown is the classified message; when the stream
    fails after some chunks, the error thrown is the classified message of
    that failure; when the stream closes, nothing is thrown. *)
Theorem createMessage_provider_errors_classified `{Externals} `{ToolCallProcessor}
  (create : AzureOpenAI -> ChatCompletionCreateParams -> ProviderResponse)
  (h : MicrosoftFoundryHandler) (systemPrompt : string)
  (history : list ClineStorageMessage) (tools : option (list ChatCompletionTool))
  (c : AzureOpenAI) :
  outcome (ensureClient h) = Ok c ->
  JS.truthy (microsoftFoundryDeploymentId (options h)) = true ->
  (forall e,
     create c (shape (options h) (text_of (microsoftFoundryDeploymentId (options h)))
                 systemPrompt history tools) = Rejected e ->
     events (createMessage create h systemPrompt history tools) = []
     /\ List.length (requests (createMessage create h systemPrompt history tools)) = 1%nat
     /\ thrown (createMessage create h systemPrompt history tools)
        = Some (getDetailedErrorMessage (options h) e))
  /\ (forall chunks e,
        create c (shape (options h) (text_of (microsoftFoundryDeploymentId (options h)))
                    systemPrompt history tools) = Streaming chunks (Some e) ->
        thrown (createMessage create h systemPrompt history tools)
        = Some (getDetailedErrorMessage (options h) e))
  /\ (forall chunks,
        create c (shape (options h) (text_of (microsoftFoundryDeploymentId (options h)))
                    systemPrompt history tools) = Streaming chunks None ->
        thrown (createMessage create h systemPrompt history tools) = None).
Proof.
  intros Hok Hdep. split; [|split].
  - intros e Hrejected. unfold createMessage. rewrite Hok, Hdep. cbn [negb].
    rewrite Hrejected. repeat split.
  - intros chunks e Hstream.
    rewrite (createMessage_streaming _ _ _ _ _ c chunks (Some e) Hok Hdep Hstream).
    reflexivity.
  - intros chunks Hstream.
    rewrite (createMessage_streaming _ _ _ _ _ c chunks None Hok Hdep Hstream).
    reflexivity.
Qed.

Lemma createMessage_provider_errors_classified_witness :
  thrown (createMessage (H := sample_externals) (H0 := spec_processor)
            (replay (Streaming [text_chunk "Hel"]
                       (Some (mkRawError "Too Many Requests" (Some 429%Z) None))))
            (new_handler (key_options (Some "gpt-4o") None)) "sys" [] None)
  = Some msg_rate_limit.
Proof.
  destruct (createMessage_provider_errors_classified (H := sample_externals)
              (H0 := spec_processor)
              (replay (Streaming [text_chunk "Hel"]
                         (Some (mkRawError "Too Many Requests" (Some 429%Z) None))))
              (new_handler (key_options (Some "gpt-4o") None)) "sys" [] None
              (mkClient "https://example.com" (apiKey "test-key") "2024-10-21")
              eq_refl eq_refl) as (_ & Hmid & _).
  exact (Hmid [text_chunk "Hel"] (mkRawError "Too Many Requests" (Some 429%Z) None) eq_refl).
Defined.

(** X17: The instance a run leaves behind holds the client the run used:
    provisioning it again returns that client and builds nothing, and a
    further call of [createMessage] on it behaves as on the original
    instance. *)
Theorem createMessage_reuses_client `{Externals} `{ToolCallProcessor}
  (create : AzureOpenAI -> ChatCompletionCreateParams -> ProviderResponse)
  (h : MicrosoftFoundryHandler) (systemPrompt systemPrompt' : string)
  (history history' : list ClineStorageMessage)
  (tools tools' : option (list ChatCompletionTool)) (c : AzureOpenAI) :
  outcome (ensureClient h) = Ok c ->
  ensureClient (handler_at_end (createMessage create h systemPrompt history tools))
  = mkProvisioned (Ok c)
      (handler_at_end (createMessage create h systemPrompt history tools)) []
  /\ createMessage create
       (handler_at_end (createMessage create h systemPrompt history tools))
       systemPrompt' history' tools'
     = createMessage create h systemPrompt' history' tools'.
Proof.
  intros Hok.
  pose proof (ensureClient_ok_caches h c Hok) as Hcached.
  assert (Hoptions : options (handler_after (ensureClient h)) = options h).
  { revert Hok. unfold ensureClient.
    destruct (client h); [reflexivity|].
    destruct (negb (JS.truthy (microsoftFoundryEndpoint (options h)))); [discriminate|].
    destruct (negb (JS.truthy (microsoftFoundryApiKey (options h)))
              && negb (flag (microsoftFoundryUseIdentity (options h)))); [discriminate|].
    destruct (flag (microsoftFoundryUseIdentity (options h))); [|reflexivity].
    now destruct (getAudienceScope (options h)). }
  assert (Hend : handler_at_end (createMessage create h systemPrompt history tools)
                 = handler_after (ensureClient h)).
  { unfold createMessage. rewrite Hok.
    destruct (negb (JS.truthy (microsoftFoundryDeploymentId (options h)))); [reflexivity|].
    destruct (create _ _) as [e|chunks failure]; [reflexivity|].
    now destruct (for_await new_ToolCallProcessor chunks). }
  rewrite Hend. split; [now apply ensureClient_cached|].
  unfold createMessage.
  rewrite (ensureClient_cached _ c Hcached), Hok, Hoptions. reflexivity.
Qed.

Lemma createMessage_reuses_client_witness :
  createMessage (H := sample_externals) (H0 := spec_processor)
    (replay (Streaming [text_chunk "again"] None))
    (handler_at_end
       (createMessage (H := sample_externals) (H0 := spec_processor)
          (replay (Streaming [text_chunk "again"] None))
          (new_handler (key_options (Some "gpt-4o") None)) "sys" [] None))
    "next" ["hi"] None
  = createMessage (H := sample_externals) (H0 := spec_processor)
      (replay (Streaming [text_chunk "again"] None))
      (new_handler (key_options (Some "gpt-4o") None)) "next" ["hi"] None.
Proof.
  destruct (createMessage_reuses_client (H := sample_externals) (H0 := spec_processor)
              (replay (Streaming [text_chunk "again"] None))
              (new_handler (key_options (Some "gpt-4o") None)) "sys" "next" [] ["hi"]
              None None
              (mkClient "https://example.com" (apiKey "test-key") "2024-10-21") eq_refl)
    as [_ Hsame].
  exact Hsame.
Defined.

(** ** Settings view *)

Lemma strip_trailing_slash_app (s : string) :
  strip_trailing_slash (s ++ "/") = s.
Proof.
  induction s as [|c s IH]; [reflexivity|].
  cbn [String.append strip_trailing_slash]. rewrite IH.
  destruct s; reflexivity.
Qed.

Lemma strip_trailing_slash_clean (s : string) :
  (forall t, s <> (t ++ "/")%string) -> strip_trailing_slash s = s.
Proof.
  induction s as [|c s IH]; intros Hclean; [reflexivity|].
  cbn [strip_trailing_slash]. destruct s as [|c' s].
  - destruct (Ascii.eqb_spec c "/") as [->|_]; [|reflexivity].
    elim (Hclean EmptyString). reflexivity.
  - rewrite IH; [reflexivity|].
    intros t Ht. apply (Hclean (String c t)). cbn. now rewrite Ht.
Qed.

(** X18: One trailing slash of the endpoint makes no difference to deployment
    discovery: for an endpoint that does not end in a slash, the models
    service is asked about that endpoint whether or not a slash is added,
    and the state afterwards is the same. *)
Theorem discoverDeployments_ignores_trailing_slash
  (service : string -> SettingsView.Reply) (endpoint : string) (s : SettingsView.State) :
  endpoint <> EmptyString ->
  (forall t, endpoint <> (t ++ "/")%string) ->
  SettingsView.discoverDeployments service (endpoint ++ "/") s
  = SettingsView.discoverDeployments service endpoint s
  /\ fst (SettingsView.discoverDeployments service (endpoint ++ "/") s) = [endpoint].
Proof.
  intros Hnonempty Hclean. unfold SettingsView.discoverDeployments.
  rewrite strip_trailing_slash_app, (strip_trailing_slash_clean _ Hclean).
  destruct endpoint as [|c rest]; [now elim Hnonempty|].
  cbn [String.append String.eqb]. now split.
Qed.

Lemma discoverDeployments_ignores_trailing_slash_witness :
  fst (SettingsView.discoverDeployments
         (fun _ => SettingsView.RejectedWith None)
         ("https://contoso.openai.azure.com" ++ "/")
         (SettingsView.mkState [] false None))
  = ["https://contoso.openai.azure.com"].
Proof.
  destruct (discoverDeployments_ignores_trailing_slash
              (fun _ => SettingsView.RejectedWith None)
              "https://contoso.openai.azure.com"
              (SettingsView.mkState [] false None)) as [_ Hasked].
  - discriminate.
  - intros t Ht. pose proof (strip_trailing_slash_app t) as Hstrip.
    rewrite <- Ht in Hstrip. vm_compute in Hstrip. rewrite <- Hstrip in Ht.
    discriminate Ht.
  - exact Hasked.
Defined.

(** X19: However discovery ends, it does not leave the view discovering; it
    ends without an error message only with a non-empty list freshly taken
    from the service; and when the service answers with an error or the
    call is rejected, the list shown before is kept and an error message is
    shown. *)
Theorem discoverDeployments_outcome
  (service : string -> SettingsView.Reply) (endpoint : string) (s : SettingsView.State) :
  endpoint <> EmptyString ->
  SettingsView.isDiscovering (snd (SettingsView.discoverDeployments service endpoint s))
  = false
  /\ (SettingsView.discoveryError (snd (SettingsView.discoverDeployments service endpoint s))
      = None ->
      exists response listed,
        service (strip_trailing_slash endpoint) = SettingsView.Answered response
        /\ SettingsView.deployments response = Some listed
        /\ listed <> []
        /\ SettingsView.deployments_shown
             (snd (SettingsView.discoverDeployments service endpoint s))
           = map SettingsView.to_deployment listed)
  /\ ((forall response,
         service (strip_trailing_slash endpoint) = SettingsView.Answered response ->
         JS.truthy (SettingsView.error response) = true) ->
      SettingsView.deployments_shown
        (snd (SettingsView.discoverDeployments service endpoint s))
      = SettingsView.deployments_shown s
      /\ SettingsView.discoveryError
           (snd (SettingsView.discoverDeployments service endpoint s)) <> None).
Proof.
  intros Hnonempty. unfold SettingsView.discoverDeployments.
  destruct (String.eqb_spec endpoint EmptyString) as [Heq|_]; [now elim Hnonempty|].
  cbn [snd].
  destruct (service (strip_trailing_slash endpoint)) as [response|[message|]].
  - destruct (JS.truthy (SettingsView.error response)) eqn:Herror; cbn.
    + split; [reflexivity|]. split; [discriminate|]. intros _. split; [reflexivity|discriminate].
    + split; [reflexivity|]. split.
      * destruct (SettingsView.deployments response) as [[|d listed]|] eqn:Hlisted; cbn;
          try discriminate.
        intros _. exists response, (d :: listed).
        split; [reflexivity|]. split; [exact Hlisted|]. split; [discriminate|reflexivity].
      * intros Hfails. specialize (Hfails response eq_refl). congruence.
  - cbn. split; [reflexivity|]. split; [discriminate|].
    intros _. split; [reflexivity|discriminate].
  - cbn. split; [reflexivity|]. split; [discriminate|].
    intros _. split; [reflexivity|discriminate].
Qed.

Lemma discoverDeployments_outcome_witness :
  SettingsView.deployments_shown
    (snd (SettingsView.discoverDeployments
            (fun _ => SettingsView.RejectedWith (Some "ECONNRESET"))
            "https://contoso.openai.azure.com"
            (SettingsView.mkState [SettingsView.mkDeployment "prod" "gpt-4o"] true None)))
  = [SettingsView.mkDeployment "prod" "gpt-4o"]
  /\ SettingsView.isDiscovering
       (snd (SettingsView.discoverDeployments
               (fun _ => SettingsView.RejectedWith (Some "ECONNRESET"))
               "https://contoso.openai.azure.com"
               (SettingsView.mkState [SettingsView.mkDeployment "prod" "gpt-4o"] true None)))
     = false.
Proof.
  destruct (discoverDeployments_outcome
              (fun _ => SettingsView.RejectedWith (Some "ECONNRESET"))
              "https://contoso.openai.azure.com"
              (SettingsView.mkState [SettingsView.mkDeployment "prod" "gpt-4o"] true None))
    as (Hidle & _ & Hkept).
  - discriminate.
  - split; [|exact Hidle]. apply Hkept. intros response Hanswered. discriminate Hanswered.
Defined.

(** X20: Selecting a deployment stores, with its identifier, the capabilities
    resolved from the model name of the discovered deployment with that
    identifier (the first one, should several share it), not from the
    identifier; selecting an identifier that is not in the list stores the
    default record. *)
Theorem handleDeploymentChange_stores
  (before after : list SettingsView.Deployment) (d : SettingsView.Deployment)
  (deploymentId : string) :
  (SettingsView.id d = deploymentId ->
   (forall d', In d' before -> SettingsView.id d' <> deploymentId) ->
   SettingsView.handleDeploymentChange (before ++ d :: after) deploymentId
   = (deploymentId, Webview.getModelCapabilities (SettingsView.model d)))
  /\ ((forall d', In d' before -> SettingsView.id d' <> deploymentId) ->
      SettingsView.handleDeploymentChange before deploymentId
      = (deploymentId, Webview.DEFAULT_MODEL_INFO)).
Proof.
  unfold SettingsView.handleDeploymentChange. split.
  - intros Hid Hbefore.
    induction before as [|d' before IH]; cbn.
    + rewrite Hid, String.eqb_refl. reflexivity.
    + destruct (String.eqb_spec (SettingsView.id d') deploymentId) as [Heq|_].
      * elim (Hbefore d' (or_introl eq_refl) Heq).
      * apply IH. intros d'' Hin. apply Hbefore. now right.
  - intros Hbefore.
    induction before as [|d' before IH]; cbn; [reflexivity|].
    destruct (String.eqb_spec (SettingsView.id d') deploymentId) as [Heq|_].
    + elim (Hbefore d' (or_introl eq_refl) Heq).
    + apply IH. intros d'' Hin. apply Hbefore. now right.
Qed.

Lemma handleDeploymentChange_stores_witness :
  SettingsView.handleDeploymentChange
    ([SettingsView.mkDeployment "scratch" "gpt-4"]
     ++ SettingsView.mkDeployment "prod" "o3-mini" :: [])
    "prod"
  = ("prod", Webview.getModelCapabilities "o3-mini").
Proof.
  apply (proj1 (handleDeploymentChange_stores
                  [SettingsView.mkDeployment "scratch" "gpt-4"] []
                  (SettingsView.mkDeployment "prod" "o3-mini") "prod")).
  - reflexivity.
  - intros d' [<-|[]]. discriminate.
Defined.

(** ** Substrings *)

Lemma prefix_iff (p s : string) :
  String.prefix p s = true <-> exists rest, s = (p ++ rest)%string.
Proof.
  revert s. induction p as [|c p IH]; intros s.
  - split; [intros _; now exists s|intros _; now destruct s].
  - destruct s as [|c' s]; cbn.
    + split; [discriminate|intros [rest Hrest]; discriminate Hrest].
    + destruct (Ascii.ascii_dec c c') as [<-|Hne].
      * rewrite IH. split; intros [rest Hrest]; exists rest; congruence.
      * split; [discriminate|]. intros [rest [= Hc _]]. now elim Hne.
Qed.

Lemma includes_iff (s needle : string) :
  JS.includes s needle = true
  <-> exists before rest, s = (before ++ needle ++ rest)%string.
Proof.
  induction s as [|c s IH]; cbn [JS.includes].
  - rewrite orb_false_r, prefix_iff. split.
    + intros [rest Hrest]. now exists EmptyString, rest.
    + intros [[|c before] [rest Hrest]]; [now exists rest|discriminate Hrest].
  - rewrite orb_true_iff, prefix_iff, IH. split.
    + intros [[rest Hrest]|[before [rest Hrest]]].
      * now exists EmptyString, rest.
      * exists (String c before), rest. cbn. now rewrite Hrest.
    + intros [[|c' before] [rest Hrest]].
      * left. now exists rest.
      * right. injection Hrest as _ Hrest. now exists before, rest.
Qed.

Lemma append_assoc (a b c : string) : ((a ++ b) ++ c)%string = (a ++ b ++ c)%string.
Proof. induction a as [|x a IH]; cbn; [reflexivity|now rewrite IH]. Qed.

Lemma includes_trans (s big small : string) :
  JS.includes big small = true -> JS.includes s big = true -> JS.includes s small = true.
Proof.
  rewrite !includes_iff. intros [b1 [r1 ->]] [b2 [r2 ->]].
  exists (b2 ++ b1)%string, (r1 ++ r2)%string.
  now rewrite !append_assoc.
Qed.

(** ** Azure OpenAI settings view *)

(** X21: For a non-empty base URL the endpoint type shown is decided by two
    fragments of the lower-cased URL alone: Azure AI Foundry exactly when
    it contains .ai.azure.com, Azure OpenAI exactly when it does not but
    contains azure.com, and Unknown otherwise; the two longer fragments the
    code also tests change nothing. *)
Theorem detectEndpointType_decided (baseUrl : string) :
  baseUrl <> EmptyString ->
  (AzureOpenAIView.detectEndpointType (Some baseUrl) = "Azure AI Foundry"
   <-> JS.includes (JS.toLowerCase baseUrl) ".ai.azure.com" = true)
  /\ (AzureOpenAIView.detectEndpointType (Some baseUrl) = "Azure OpenAI"
      <-> JS.includes (JS.toLowerCase baseUrl) ".ai.azure.com" = false
          /\ JS.includes (JS.toLowerCase baseUrl) "azure.com" = true)
  /\ (AzureOpenAIView.detectEndpointType (Some baseUrl) = "Unknown"
      <-> JS.includes (JS.toLowerCase baseUrl) "azure.com" = false).
Proof.
  intros Hnonempty. unfold AzureOpenAIView.detectEndpointType. cbn [JS.truthy text_of].
  destruct (String.eqb_spec baseUrl EmptyString) as [Heq|_]; [now elim Hnonempty|].
  cbn [negb].
  pose proof (includes_trans (JS.toLowerCase baseUrl) ".services.ai.azure.com"
                ".ai.azure.com" eq_refl) as Hservices.
  pose proof (includes_trans (JS.toLowerCase baseUrl) ".ai.azure.com" "azure.com" eq_refl)
    as Hfoundry.
  pose proof (includes_trans (JS.toLowerCase baseUrl) ".openai.azure.com" "azure.com" eq_refl)
    as Hopenai.
  destruct (JS.includes (JS.toLowerCase baseUrl) ".services.ai.azure.com");
    destruct (JS.includes (JS.toLowerCase baseUrl) ".ai.azure.com");
    destruct (JS.includes (JS.toLowerCase baseUrl) ".openai.azure.com");
    destruct (JS.includes (JS.toLowerCase baseUrl) "azure.com");
    cbn [orb];
    try (specialize (Hservices eq_refl)); try (specialize (Hfoundry eq_refl));
    try (specialize (Hopenai eq_refl)); try discriminate;
    repeat split; intros; try discriminate; try reflexivity;
    match goal with
    | H : _ /\ _ |- _ => destruct H; discriminate
    end.
Qed.

Lemma detectEndpointType_decided_witness :
  AzureOpenAIView.detectEndpointType (Some "https://Contoso.Services.AI.Azure.com")
  = "Azure AI Foundry".
Proof.
  destruct (detectEndpointType_decided "https://Contoso.Services.AI.Azure.com")
    as [Hfoundry _]; [discriminate|].
  apply Hfoundry. reflexivity.
Defined.

(** ** Deployment discovery *)

Lemma split_dots_nonempty (s : string) : split_dots s <> [].
Proof.
  destruct s as [|c s]; cbn; [discriminate|].
  destruct (Ascii.eqb c "."); [discriminate|].
  destruct (split_dots s); discriminate.
Qed.

(** X22: The Resource Manager version of [extractResourceNameFromEndpoint]
    extends the Azure CLI version: whenever the CLI version finds a
    resource name, the name is not empty and the Resource Manager version
    finds the same one; and the Resource Manager version finds a name (the
    first label of the host) for every endpoint that parses as a URL, where
    the CLI version finds one for the standard Azure hosts only. *)
Theorem extractResourceName_versions (url_hostname : string -> option string)
  (endpoint : string) :
  (forall resource,
     DeploymentsCli.extractResourceNameFromEndpoint url_hostname endpoint = Some resource ->
     resource <> EmptyString
     /\ DeploymentsArm.extractResourceNameFromEndpoint url_hostname endpoint = Some resource)
  /\ (forall host, url_hostname endpoint = Some host ->
        exists resource,
          DeploymentsArm.extractResourceNameFromEndpoint url_hostname endpoint
          = Some resource)
  /\ (url_hostname endpoint = None ->
      DeploymentsArm.extractResourceNameFromEndpoint url_hostname endpoint = None).
Proof.
  unfold DeploymentsCli.extractResourceNameFromEndpoint,
    DeploymentsArm.extractResourceNameFromEndpoint.
  destruct (url_hostname endpoint) as [host|].
  2:{ split; [discriminate|]. split; [discriminate|reflexivity]. }
  split; [|split; [|discriminate]].
  - intros name Hcli. rewrite Hcli. split; [|reflexivity].
    revert Hcli. unfold standard_resource.
    destruct (split_dots (JS.toLowerCase host)) as [|r [|sv [|az [|top [|? ?]]]]];
      try discriminate.
    destruct (String.eqb_spec r EmptyString) as [->|Hr]; cbn [negb andb]; [discriminate|].
    destruct (_ && _ && _); [|discriminate]. now intros [= <-].
  - intros host' _.
    destruct (standard_resource (JS.toLowerCase host)) as [name|]; [now exists name|].
    pose proof (split_dots_nonempty (JS.toLowerCase host)) as Hparts.
    destruct (split_dots (JS.toLowerCase host)) as [|first others]; [now elim Hparts|].
    now exists first.
Qed.

Lemma extractResourceName_versions_witness :
  DeploymentsArm.extractResourceNameFromEndpoint sample_hostname
    "https://Contoso.OpenAI.azure.com/" = Some "contoso".
Proof.
  destruct (extractResourceName_versions sample_hostname "https://Contoso.OpenAI.azure.com/")
    as [Hcli _].
  exact (proj2 (Hcli "contoso" eq_refl)).
Defined.

Lemma list_deployments_exclusive (w : DeploymentsArm.World)
  (management token resourceId : string) (response : DeploymentsArm.MicrosoftFoundryDeploymentsResponse) :
  snd (DeploymentsArm.list_deployments w management token resourceId) = Ok response ->
  (DeploymentsArm.deployments response = [] <-> DeploymentsArm.error response <> None).
Proof.
  unfold DeploymentsArm.list_deployments. cbn [snd].
  destruct (DeploymentsArm.fetch w _) as [http|]; [|discriminate].
  destruct (negb (DeploymentsArm.ok http)).
  { destruct (DeploymentsArm.text http); discriminate. }
  destruct (DeploymentsArm.json http) as [body|]; [|discriminate].
  destruct (DeploymentsArm.value body) as [[|d listed]|]; intros [= <-]; cbn;
    split; try discriminate; try reflexivity; intros Hc; now elim Hc.
Qed.

Lemma caught_exclusive (m : string) :
  DeploymentsArm.deployments (DeploymentsArm.caught m) = []
  /\ DeploymentsArm.error (DeploymentsArm.caught m) <> None.
Proof.
  unfold DeploymentsArm.caught. destruct (_ || _); split; try reflexivity; discriminate.
Qed.

Lemma attempt_exclusive (w : DeploymentsArm.World) (endpoint : string)
  (armEndpoint : option string) (resourceName : string)
  (response : DeploymentsArm.MicrosoftFoundryDeploymentsResponse) :
  snd (DeploymentsArm.attempt w endpoint armEndpoint resourceName) = Ok response ->
  (DeploymentsArm.deployments response = [] <-> DeploymentsArm.error response <> None).
Proof.
  unfold DeploymentsArm.attempt.
  destruct (DeploymentsArm.getToken w _) as [[token|]|]; try discriminate.
  destruct (DeploymentsArm.fetch w _) as [http|]; [|discriminate].
  destruct (negb (DeploymentsArm.ok http)).
  { destruct (DeploymentsArm.text http); discriminate. }
  destruct (DeploymentsArm.json http) as [body|]; [|discriminate].
  destruct (DeploymentsArm.data body) as [[|resourceId rows]|].
  - intros [= <-]. cbn. split; [discriminate|reflexivity].
  - pose proof (list_deployments_exclusive w
                  (DeploymentsArm.managementEndpoint endpoint armEndpoint) token resourceId
                  response) as Hlist.
    destruct (DeploymentsArm.list_deployments w _ token resourceId) as [sent result].
    exact Hlist.
  - intros [= <-]. cbn. split; [discriminate|reflexivity].
Qed.

(** X23: Discovery always answers with either deployments or an error, never
    both and never neither: the list returned is empty exactly when an
    error message is returned, whatever the credential and the network
    do. *)
Theorem getMicrosoftFoundryDeployments_answer (w : DeploymentsArm.World)
  (request : DeploymentsArm.MicrosoftFoundryDeploymentsRequest) :
  DeploymentsArm.deployments
    (DeploymentsArm.returned (DeploymentsArm.getMicrosoftFoundryDeployments w request)) = []
  <-> DeploymentsArm.error
        (DeploymentsArm.returned (DeploymentsArm.getMicrosoftFoundryDeployments w request))
      <> None.
Proof.
  unfold DeploymentsArm.getMicrosoftFoundryDeployments.
  destruct (negb (JS.truthy (DeploymentsArm.endpoint request)));
    [cbn; split; [discriminate|reflexivity]|].
  destruct (DeploymentsArm.extractResourceNameFromEndpoint _ _) as [resourceName|];
    [|cbn; split; [discriminate|reflexivity]].
  destruct (resourceName =? EmptyString); [cbn; split; [discriminate|reflexivity]|].
  destruct (negb (valid_resource_name resourceName));
    [cbn; split; [discriminate|reflexivity]|].
  pose proof (attempt_exclusive w (text_of (DeploymentsArm.endpoint request))
                (DeploymentsArm.armEndpoint request) resourceName) as Hattempt.
  destruct (DeploymentsArm.attempt w _ _ resourceName) as [[asked sent] [response|m]];
    cbn [snd DeploymentsArm.returned] in *.
  - now apply Hattempt.
  - destruct (caught_exclusive m) as [Hempty Herror]. split; [now intros _|now intros _].
Qed.

Lemma attempt_requests (w : DeploymentsArm.World) (endpoint : string)
  (armEndpoint : option string) (resourceName : string) :
  fst (fst (DeploymentsArm.attempt w endpoint armEndpoint resourceName))
  = [DeploymentsArm.audienceScope endpoint armEndpoint]
  /\ (snd (fst (DeploymentsArm.attempt w endpoint armEndpoint resourceName)) = []
      \/ exists token,
           DeploymentsArm.getToken w (DeploymentsArm.audienceScope endpoint armEndpoint)
           = Ok (Some token)
           /\ let graph :=
                DeploymentsArm.mkFetch
                  (DeploymentsArm.managementEndpoint endpoint armEndpoint
                   ++ "/providers/Microsoft.ResourceGraph/resources?api-version=2021-03-01")
                  "POST" ("Bearer " ++ token)
                  (Some ("Resources | where name =~ '" ++ resourceName
                         ++ "' and type =~ 'microsoft.cognitiveservices/accounts' | project id, resourceGroup, subscriptionId")%string) in
              snd (fst (DeploymentsArm.attempt w endpoint armEndpoint resourceName)) = [graph]
              \/ exists http body resourceId rows,
                   DeploymentsArm.fetch w graph = Ok http
                   /\ DeploymentsArm.ok http = true
                   /\ DeploymentsArm.json http = Ok body
                   /\ DeploymentsArm.data body = Some (resourceId :: rows)
                   /\ snd (fst (DeploymentsArm.attempt w endpoint armEndpoint resourceName))
                      = [graph;
                         DeploymentsArm.mkFetch
                           (DeploymentsArm.managementEndpoint endpoint armEndpoint
                            ++ resourceId ++ "/deployments?api-version=2023-05-01")
                           "GET" ("Bearer " ++ token) None]).
Proof.
  unfold DeploymentsArm.attempt.
  destruct (DeploymentsArm.getToken w _) as [[token|]|] eqn:Htoken;
    try (split; [reflexivity|now left]).
  change (DeploymentsArm.graph_request
            (DeploymentsArm.managementEndpoint endpoint armEndpoint) token resourceName)
    with (DeploymentsArm.mkFetch
            (DeploymentsArm.managementEndpoint endpoint armEndpoint
             ++ "/providers/Microsoft.ResourceGraph/resources?api-version=2021-03-01")
            "POST" ("Bearer " ++ token)
            (Some ("Resources | where name =~ '" ++ resourceName
                   ++ "' and type =~ 'microsoft.cognitiveservices/accounts' | project id, resourceGroup, subscriptionId")%string)).
  destruct (DeploymentsArm.fetch w _) as [http|] eqn:Hfetch;
    [|split; [reflexivity|right; exists token; split; [reflexivity|now left]]].
  destruct (DeploymentsArm.ok http) eqn:Hok; cbn [negb].
  2:{ destruct (DeploymentsArm.text http);
        (split; [reflexivity|right; exists token; split; [reflexivity|now left]]). }
  destruct (DeploymentsArm.json http) as [body|] eqn:Hjson;
    [|split; [reflexivity|right; exists token; split; [reflexivity|now left]]].
  destruct (DeploymentsArm.data body) as [[|resourceId rows]|] eqn:Hdata;
    try (split; [reflexivity|right; exists token; split; [reflexivity|now left]]).
  unfold DeploymentsArm.list_deployments. cbn [fst snd].
  split; [reflexivity|]. right. exists token. split; [reflexivity|].
  right. exists http, body, resourceId, rows. repeat split; assumption.
Qed.

(** X24: Discovery touches the credential and the network only for a
    resource name made of ASCII letters, digits and hyphens: when a token
    is asked for or a request is sent, the name extracted from the endpoint
    is such a name and exactly one token is asked for, for the audience
    scope of the management endpoint.  The requests sent are then at most
    these two, in this order, both with that token as bearer: the POST to
    the Resource Graph path of the management endpoint, whose query names
    that resource; and, when the Resource Graph answers with rows, the GET
    whose URL is the management endpoint, then the id of the first row as it
    was received (it is not validated), then the deployments path. *)
Theorem getMicrosoftFoundryDeployments_validates_first (w : DeploymentsArm.World)
  (request : DeploymentsArm.MicrosoftFoundryDeploymentsRequest) :
  DeploymentsArm.scopes (DeploymentsArm.getMicrosoftFoundryDeployments w request) <> []
  \/ DeploymentsArm.fetched (DeploymentsArm.getMicrosoftFoundryDeployments w request) <> [] ->
  exists resourceName,
    DeploymentsArm.extractResourceNameFromEndpoint (DeploymentsArm.url_hostname w)
      (text_of (DeploymentsArm.endpoint request)) = Some resourceName
    /\ resourceName <> EmptyString
    /\ all_chars resource_char resourceName = true
    /\ DeploymentsArm.scopes (DeploymentsArm.getMicrosoftFoundryDeployments w request)
       = [DeploymentsArm.audienceScope (text_of (DeploymentsArm.endpoint request))
            (DeploymentsArm.armEndpoint request)]
    /\ (DeploymentsArm.fetched (DeploymentsArm.getMicrosoftFoundryDeployments w request) = []
        \/ exists token,
             DeploymentsArm.getToken w
               (DeploymentsArm.audienceScope (text_of (DeploymentsArm.endpoint request))
                  (DeploymentsArm.armEndpoint request)) = Ok (Some token)
             /\ let graph :=
                  DeploymentsArm.mkFetch
                    (DeploymentsArm.managementEndpoint
                       (text_of (DeploymentsArm.endpoint request))
                       (DeploymentsArm.armEndpoint request)
                     ++ "/providers/Microsoft.ResourceGraph/resources?api-version=2021-03-01")
                    "POST" ("Bearer " ++ token)
                    (Some ("Resources | where name =~ '" ++ resourceName
                           ++ "' and type =~ 'microsoft.cognitiveservices/accounts' | project id, resourceGroup, subscriptionId")%string) in
                DeploymentsArm.fetched
                  (DeploymentsArm.getMicrosoftFoundryDeployments w request) = [graph]
                \/ exists http body resourceId rows,
                     DeploymentsArm.fetch w graph = Ok http
                     /\ DeploymentsArm.ok http = true
                     /\ DeploymentsArm.json http = Ok body
                     /\ DeploymentsArm.data body = Some (resourceId :: rows)
                     /\ DeploymentsArm.fetched
                          (DeploymentsArm.getMicrosoftFoundryDeployments w request)
                        = [graph;
                           DeploymentsArm.mkFetch
                             (DeploymentsArm.managementEndpoint
                                (text_of (DeploymentsArm.endpoint request))
                                (DeploymentsArm.armEndpoint request)
                              ++ resourceId ++ "/deployments?api-version=2023-05-01")
                             "GET" ("Bearer " ++ token) None]).
Proof.
  unfold DeploymentsArm.getMicrosoftFoundryDeployments.
  destruct (negb (JS.truthy (DeploymentsArm.endpoint request)));
    [cbn; intros [Hc|Hc]; now elim Hc|].
  destruct (DeploymentsArm.extractResourceNameFromEndpoint _ _) as [resourceName|];
    [|cbn; intros [Hc|Hc]; now elim Hc].
  destruct (String.eqb_spec resourceName EmptyString) as [Hempty|Hname];
    [cbn; intros [Hc|Hc]; now elim Hc|].
  destruct (valid_resource_name resourceName) eqn:Hvalid; cbn [negb];
    [|cbn; intros [Hc|Hc]; now elim Hc].
  intros _.
  destruct (attempt_requests w (text_of (DeploymentsArm.endpoint request))
              (DeploymentsArm.armEndpoint request) resourceName) as [Hscopes Hfetched].
  destruct (DeploymentsArm.attempt w _ _ resourceName) as [[asked sent] result].
  cbn [fst snd DeploymentsArm.scopes DeploymentsArm.fetched] in *.
  exists resourceName. split; [reflexivity|]. split; [exact Hname|].
  unfold valid_resource_name in Hvalid. apply andb_true_iff in Hvalid as [_ Hchars].
  split; [exact Hchars|]. split; [exact Hscopes|exact Hfetched].
Qed.

Lemma getMicrosoftFoundryDeployments_validates_first_witness :
  DeploymentsArm.scopes
    (DeploymentsArm.getMicrosoftFoundryDeployments sample_world
       (DeploymentsArm.mkRequest (Some "https://contoso.openai.azure.us") None))
  = ["https://management.usgovcloudapi.net/.default"].
Proof.
  destruct (getMicrosoftFoundryDeployments_validates_first sample_world
              (DeploymentsArm.mkRequest (Some "https://contoso.openai.azure.us") None))
    as (resourceName & _ & _ & _ & Hscopes & _).
  - left. discriminate.
  - exact Hscopes.
Defined.

(** X25: The audience scope a token is asked for is always the management
    endpoint followed by /.default: for a configured Resource Manager
    endpoint (less one trailing slash), which takes precedence, for the
    government cloud when the endpoint contains .azure.us in any letter
    case, and for the commercial cloud otherwise. *)
Theorem audienceScope_of_managementEndpoint (endpoint : string) (armEndpoint : option string) :
  DeploymentsArm.audienceScope endpoint armEndpoint
  = (DeploymentsArm.managementEndpoint endpoint armEndpoint ++ "/.default")%string
  /\ (JS.truthy armEndpoint = true ->
      DeploymentsArm.managementEndpoint endpoint armEndpoint
      = strip_trailing_slash (text_of armEndpoint))
  /\ (JS.truthy armEndpoint = false ->
      JS.includes (JS.toLowerCase endpoint) ".azure.us" = true ->
      DeploymentsArm.managementEndpoint endpoint armEndpoint
      = DeploymentsArm.government_management)
  /\ (JS.truthy armEndpoint = false ->
      JS.includes (JS.toLowerCase endpoint) ".azure.us" = false ->
      DeploymentsArm.managementEndpoint endpoint armEndpoint
      = DeploymentsArm.commercial_management).
Proof.
  unfold DeploymentsArm.audienceScope, DeploymentsArm.managementEndpoint.
  destruct (JS.truthy armEndpoint);
    destruct (JS.includes (JS.toLowerCase endpoint) ".azure.us");
    repeat split; intros; try reflexivity; discriminate.
Qed.

Lemma audienceScope_of_managementEndpoint_witness :
  DeploymentsArm.managementEndpoint "https://contoso.openai.azure.us"
    (Some "https://management.local.azurestack.external/")
  = "https://management.local.azurestack.external".
Proof.
  destruct (audienceScope_of_managementEndpoint "https://contoso.openai.azure.us"
              (Some "https://management.local.azurestack.external/")) as (_ & Harm & _).
  exact (Harm eq_refl).
Defined.

(** X26: When discovery returns no error, the deployments returned are the
    elements of the listing the Resource Manager sent, in the same order
    and number, each under its deployment name, with the model name falling
    back to the deployment name and the model version to the empty
    string. *)
Theorem getMicrosoftFoundryDeployments_maps_listing (w : DeploymentsArm.World)
  (request : DeploymentsArm.MicrosoftFoundryDeploymentsRequest) :
  DeploymentsArm.error
    (DeploymentsArm.returned (DeploymentsArm.getMicrosoftFoundryDeployments w request)) = None ->
  exists f http body listed,
    In f (DeploymentsArm.fetched (DeploymentsArm.getMicrosoftFoundryDeployments w request))
    /\ DeploymentsArm.fetch w f = Ok http
    /\ DeploymentsArm.json http = Ok body
    /\ DeploymentsArm.value body = Some listed
    /\ DeploymentsArm.deployments
         (DeploymentsArm.returned (DeploymentsArm.getMicrosoftFoundryDeployments w request))
       = map DeploymentsArm.to_proto listed
    /\ map DeploymentsArm.id
         (DeploymentsArm.deployments
            (DeploymentsArm.returned (DeploymentsArm.getMicrosoftFoundryDeployments w request)))
       = map DeploymentsArm.name listed.
Proof.
  unfold DeploymentsArm.getMicrosoftFoundryDeployments.
  destruct (negb (JS.truthy (DeploymentsArm.endpoint request))); [discriminate|].
  destruct (DeploymentsArm.extractResourceNameFromEndpoint _ _) as [resourceName|];
    [|discriminate].
  destruct (resourceName =? EmptyString); [discriminate|].
  destruct (negb (valid_resource_name resourceName)); [discriminate|].
  unfold DeploymentsArm.attempt.
  destruct (DeploymentsArm.getToken w _) as [[token|]|];
    try (cbn; destruct (caught_exclusive
                          "Failed to acquire access token for Azure Management API.")
           as [_ Hc]; intros Hnone; now elim Hc);
    try (cbn; match goal with
              | |- DeploymentsArm.error (DeploymentsArm.caught ?m) = None -> _ =>
                  destruct (caught_exclusive m) as [_ Hc]; intros Hnone; now elim Hc
              end).
  destruct (DeploymentsArm.fetch w (DeploymentsArm.graph_request _ token resourceName))
    as [http|m];
    [|cbn; destruct (caught_exclusive m) as [_ Hc]; intros Hnone; now elim Hc].
  destruct (negb (DeploymentsArm.ok http)).
  { destruct (DeploymentsArm.text http) as [t|m]; cbn;
      match goal with
      | |- DeploymentsArm.error (DeploymentsArm.caught ?m) = None -> _ =>
          destruct (caught_exclusive m) as [_ Hc]; intros Hnone; now elim Hc
      end. }
  destruct (DeploymentsArm.json http) as [body|m];
    [|cbn; destruct (caught_exclusive m) as [_ Hc]; intros Hnone; now elim Hc].
  destruct (DeploymentsArm.data body) as [[|resourceId rows]|]; try discriminate.
  unfold DeploymentsArm.list_deployments.
  destruct (DeploymentsArm.fetch w (DeploymentsArm.listing_request _ token resourceId))
    as [http2|m] eqn:Hfetch;
    [|cbn; destruct (caught_exclusive m) as [_ Hc]; intros Hnone; now elim Hc].
  destruct (negb (DeploymentsArm.ok http2)).
  { destruct (DeploymentsArm.text http2) as [t|m]; cbn;
      match goal with
      | |- DeploymentsArm.error (DeploymentsArm.caught ?m) = None -> _ =>
          destruct (caught_exclusive m) as [_ Hc]; intros Hnone; now elim Hc
      end. }
  destruct (DeploymentsArm.json http2) as [body2|m] eqn:Hjson;
    [|cbn; destruct (caught_exclusive m) as [_ Hc]; intros Hnone; now elim Hc].
  destruct (DeploymentsArm.value body2) as [[|d listed]|] eqn:Hvalue; try discriminate.
  cbn. intros _.
  exists (DeploymentsArm.listing_request
            (DeploymentsArm.managementEndpoint (text_of (DeploymentsArm.endpoint request))
               (DeploymentsArm.armEndpoint request)) token resourceId),
    http2, body2, (d :: listed).
  split; [right; now left|]. split; [exact Hfetch|]. split; [exact Hjson|].
  split; [exact Hvalue|]. split; [reflexivity|].
  cbn. f_equal. now rewrite map_map.
Qed.

Lemma getMicrosoftFoundryDeployments_maps_listing_witness :
  exists listed,
    DeploymentsArm.deployments
      (DeploymentsArm.returned
         (DeploymentsArm.getMicrosoftFoundryDeployments sample_world
            (DeploymentsArm.mkRequest (Some "https://contoso.openai.azure.com") None)))
    = map DeploymentsArm.to_proto listed
    /\ map DeploymentsArm.name listed = ["prod-gpt4o"; "scratch"].
Proof.
  destruct (getMicrosoftFoundryDeployments_maps_listing sample_world
              (DeploymentsArm.mkRequest (Some "https://contoso.openai.azure.com") None)
              eq_refl) as (f & http & body & listed & _ & _ & _ & _ & Hmapped & Hids).
  exists listed. split; [exact Hmapped|]. rewrite <- Hids. reflexivity.
Defined.
